(** * safe-cookie: the analysis pipeline, embedded and checked

    A shallow embedding of the security-analysis core of the safe-cookie
    server (URL validator, HTTP fetcher with retry, error classifier,
    certificate-chain walk, cookie analyzer, HTML analyzer and the
    aggregating controller), together with the properties that its
    specification states about it.

    JavaScript numbers are IEEE-754 binary64 values; they are modelled by
    the Standard Library's [spec_float] at precision 53 / emax 1024, whose
    operations are plain functions on [Z] and [positive], so that every
    score computed below is the double the program computes. *)

From Stdlib Require Import ZArith List String Ascii Bool Lia.
From Stdlib Require Import Floats.SpecFloat.
Import ListNotations.
Open Scope Z_scope.

(* ================================================================= *)
(** * Part I. The embedding *)
(* ================================================================= *)

(** ** JavaScript numbers *)

Module JS.

Definition prec : Z := 53.
Definition emax : Z := 1024.

Definition number : Type := spec_float.

Definition NaN : number := S754_nan.

(** An integer literal ([0], [90], [100], ...). *)
Definition int (z : Z) : number := binary_normalize prec emax z 0 false.

Definition add : number -> number -> number := SFadd prec emax.
Definition sub : number -> number -> number := SFsub prec emax.
Definition mul : number -> number -> number := SFmul prec emax.
Definition div : number -> number -> number := SFdiv prec emax.

(** A decimal literal [n / 10^k], e.g. [0.35]: the double nearest to the
    decimal, which is what the correctly rounded quotient of the two
    exactly representable integers gives. *)
Definition dec (n : Z) (k : nat) : number := div (int n) (int (10 ^ Z.of_nat k)).

(** [x < y], [x <= y], [x > y], [x >= y]; all false when an operand is NaN. *)
Definition ltb (x y : number) : bool := SFltb x y.
Definition leb (x y : number) : bool := SFleb x y.
Definition gtb (x y : number) : bool := SFltb y x.
Definition geb (x y : number) : bool := SFleb y x.

(** [x === y] on numbers. *)
Definition eqb (x y : number) : bool := SFeqb x y.

(** ToBoolean on a number: false for [+0], [-0] and [NaN]. *)
Definition truthy (x : number) : bool :=
  match x with
  | S754_zero _ | S754_nan => false
  | _ => true
  end.

(** [x || d] for numbers. *)
Definition or_else (x d : number) : number := if truthy x then x else d.

(** [Math.min(x, y)] and [Math.max(x, y)]: NaN if either is NaN, and
    [-0] is smaller than [+0]. *)
Definition Math_min (x y : number) : number :=
  match x, y with
  | S754_nan, _ | _, S754_nan => S754_nan
  | S754_zero sx, S754_zero sy => S754_zero (sx || sy)
  | _, _ => if SFltb y x then y else x
  end.

Definition Math_max (x y : number) : number :=
  match x, y with
  | S754_nan, _ | _, S754_nan => S754_nan
  | S754_zero sx, S754_zero sy => S754_zero (sx && sy)
  | _, _ => if SFltb x y then y else x
  end.

(** [Math.round(x)]: the integer nearest to [x], ties towards
    [+Infinity]; NaN, zeros, infinities and integers are returned
    unchanged.  For [x = (-1)^s * m * 2^(-k)] the result is
    [floor ((2 * (+/-m) + 2^k) / 2^(k+1))], with the sign of [x] when
    it is zero. *)
Definition Math_round (x : number) : number :=
  match x with
  | S754_finite s m (Zneg k) =>
      let sm := if s then Zneg m else Zpos m in
      let n := (2 * sm + 2 ^ Zpos k) / 2 ^ (Zpos k + 1) in
      binary_normalize prec emax n 0 s
  | _ => x
  end.

(** [Math.max(0, Math.min(100, x))], the clamp at the end of the score
    functions. *)
Definition clamp (x : number) : number := Math_max (int 0) (Math_min (int 100) x).

End JS.

(** ** Letter grades *)

Inductive Grade : Type := GradeAplus | GradeA | GradeB | GradeC | GradeD | GradeF.

(** The string the program returns for each grade. *)
Definition grade_string (g : Grade) : string :=
  match g with
  | GradeAplus => "A+" | GradeA => "A" | GradeB => "B"
  | GradeC => "C" | GradeD => "D" | GradeF => "F"
  end%string.

(** The order F < D < C < B < A < A+. *)
Definition grade_rank (g : Grade) : nat :=
  match g with
  | GradeF => 0 | GradeD => 1 | GradeC => 2
  | GradeB => 3 | GradeA => 4 | GradeAplus => 5
  end%nat.

Definition grade_eqb (a b : Grade) : bool := (grade_rank a =? grade_rank b)%nat.

(** The grade of an integer score, by the thresholds 90, 80, 70, 60, 50. *)
Definition grade_of_Z (n : Z) : Grade :=
  if 90 <=? n then GradeAplus
  else if 80 <=? n then GradeA
  else if 70 <=? n then GradeB
  else if 60 <=? n then GradeC
  else if 50 <=? n then GradeD
  else GradeF.

(** ** Findings

    A finding keeps its [type] and [severity]; its explanatory texts
    ([message], [impact], [solution]) are not part of the model. *)

Inductive Severity : Type :=
| Critical | High | Medium | Low | Info | Warning | Error.

Definition severity_eqb (a b : Severity) : bool :=
  match a, b with
  | Critical, Critical | High, High | Medium, Medium | Low, Low
  | Info, Info | Warning, Warning | Error, Error => true
  | _, _ => false
  end.

Record Vulnerability : Type := mkVulnerability {
  v_type : string;
  severity : Severity
}.

(** ** JavaScript strings

    Strings are sequences of 8-bit characters; the inputs that matter here
    (URLs, host names, cookie names, error codes) are ASCII. *)

Module Str.
Local Open Scope string_scope.

Definition lower_ascii (c : ascii) : ascii :=
  let n := nat_of_ascii c in
  if (65 <=? n)%nat && (n <=? 90)%nat then ascii_of_nat (n + 32) else c.

(** [s.toLowerCase()] *)
Fixpoint toLowerCase (s : string) : string :=
  match s with
  | EmptyString => EmptyString
  | String c s' => String (lower_ascii c) (toLowerCase s')
  end.

(** [s.startsWith(p)] *)
Fixpoint startsWith (s p : string) : bool :=
  match p, s with
  | EmptyString, _ => true
  | String _ _, EmptyString => false
  | String a p', String b s' => Ascii.eqb a b && startsWith s' p'
  end.

(** [s.includes(p)] *)
Fixpoint includes (s p : string) : bool :=
  startsWith s p ||
  match s with
  | EmptyString => false
  | String _ s' => includes s' p
  end.

(** The suffix of [s] after its first [n] characters. *)
Fixpoint drop (n : nat) (s : string) : string :=
  match n, s with
  | O, _ => s
  | S _, EmptyString => EmptyString
  | S n', String _ s' => drop n' s'
  end.

(** [s.replace(p, r)] with a string pattern: the first occurrence only. *)
Fixpoint replace (s p r : string) : string :=
  if startsWith s p then r ++ drop (String.length p) s
  else match s with
       | EmptyString => EmptyString
       | String c s' => String c (replace s' p r)
       end.

Definition is_space (c : ascii) : bool :=
  let n := nat_of_ascii c in
  (n =? 32)%nat || ((9 <=? n)%nat && (n <=? 13)%nat).

Fixpoint trimStart (s : string) : string :=
  match s with
  | String c s' => if is_space c then trimStart s' else s
  | EmptyString => EmptyString
  end.

Fixpoint rev_acc (s acc : string) : string :=
  match s with
  | EmptyString => acc
  | String c s' => rev_acc s' (String c acc)
  end.

Definition rev (s : string) : string := rev_acc s EmptyString.

(** [s.trim()] *)
Definition trim (s : string) : string := rev (trimStart (rev (trimStart s))).

(** [s.split(sep)] for a one-character separator. *)
Fixpoint split_acc (sep : ascii) (s cur : string) : list string :=
  match s with
  | EmptyString => [rev cur]
  | String c s' =>
      if Ascii.eqb c sep then rev cur :: split_acc sep s' EmptyString
      else split_acc sep s' (String c cur)
  end.

Definition split (s : string) (sep : ascii) : list string :=
  split_acc sep s EmptyString.

(** ToBoolean on a string: the empty string is falsy. *)
Definition truthy (s : string) : bool :=
  match s with EmptyString => false | _ => true end.

Definition is_digit (c : ascii) : bool :=
  let n := nat_of_ascii c in (48 <=? n)%nat && (n <=? 57)%nat.

(** [Number(s)] for a string of decimal digits, as [String.split] followed
    by [map(Number)] produces from a dotted quad; [None] stands for NaN
    and the empty string converts to 0. *)
Fixpoint digits_value (s : string) (acc : Z) : option Z :=
  match s with
  | EmptyString => Some acc
  | String c s' =>
      if is_digit c
      then digits_value s' (10 * acc + Z.of_nat (nat_of_ascii c - 48))
      else None
  end.

Definition Number (s : string) : option Z := digits_value s 0.

(** [String(n)] for a non-negative integer: its decimal digits. *)
Fixpoint decimal_acc (fuel n : nat) (acc : string) : string :=
  match fuel with
  | O => acc
  | S fuel' =>
      let acc' := String (ascii_of_nat (48 + n mod 10)) acc in
      if (n / 10 =? 0)%nat then acc' else decimal_acc fuel' (n / 10) acc'
  end.

Definition decimal (n : nat) : string := decimal_acc (S n) n EmptyString.

(** Whether the character [c] occurs in [s]. *)
Fixpoint has_char (c : ascii) (s : string) : bool :=
  match s with
  | EmptyString => false
  | String a s' => Ascii.eqb a c || has_char c s'
  end.

(** Whether every character of [s] satisfies [ok]. *)
Fixpoint every (ok : ascii -> bool) (s : string) : bool :=
  match s with
  | EmptyString => true
  | String c s' => ok c && every ok s'
  end.

End Str.

(** ** Regular expressions

    The program's regular-expression literals are written as terms of
    [regex] and matched with Brzozowski derivatives. *)

Module Regex.

Inductive regex : Type :=
| Void                              (* matches nothing *)
| Eps                               (* the empty string *)
| Range (lo hi : ascii)             (* one character in [lo-hi] *)
| Alt (r1 r2 : regex)
| Seq (r1 r2 : regex)
| Star (r : regex).

Definition Chr (c : ascii) : regex := Range c c.
Definition Any : regex := Range "000"%char "255"%char.

(** A literal string. *)
Fixpoint Lit (s : string) : regex :=
  match s with
  | EmptyString => Eps
  | String c EmptyString => Chr c
  | String c s' => Seq (Chr c) (Lit s')
  end.

(** A character class given as a list of alternatives. *)
Fixpoint OneOf (l : list regex) : regex :=
  match l with
  | [] => Void
  | [r] => r
  | r :: l' => Alt r (OneOf l')
  end.

(** [r?], [r{n}], [r{0,n}], [r{n,}], [r+] *)
Definition Opt (r : regex) : regex := Alt Eps r.

Fixpoint Exactly (n : nat) (r : regex) : regex :=
  match n with
  | O => Eps
  | S O => r
  | S n' => Seq r (Exactly n' r)
  end.

Fixpoint UpTo (n : nat) (r : regex) : regex :=
  match n with
  | O => Eps
  | S n' => Opt (Seq r (UpTo n' r))
  end.

Definition Between (m n : nat) (r : regex) : regex :=
  Seq (Exactly m r) (UpTo (n - m) r).

Definition AtLeast (n : nat) (r : regex) : regex := Seq (Exactly n r) (Star r).

Definition Plus (r : regex) : regex := Seq r (Star r).

Fixpoint nullable (r : regex) : bool :=
  match r with
  | Void => false
  | Eps => true
  | Range _ _ => false
  | Alt r1 r2 => nullable r1 || nullable r2
  | Seq r1 r2 => nullable r1 && nullable r2
  | Star _ => true
  end.

Definition in_range (lo hi c : ascii) : bool :=
  ((nat_of_ascii lo <=? nat_of_ascii c) && (nat_of_ascii c <=? nat_of_ascii hi))%nat.

Definition mkAlt (r1 r2 : regex) : regex :=
  match r1, r2 with
  | Void, _ => r2
  | _, Void => r1
  | _, _ => Alt r1 r2
  end.

Definition mkSeq (r1 r2 : regex) : regex :=
  match r1, r2 with
  | Void, _ => Void
  | _, Void => Void
  | Eps, _ => r2
  | _, _ => Seq r1 r2
  end.

Fixpoint deriv (c : ascii) (r : regex) : regex :=
  match r with
  | Void => Void
  | Eps => Void
  | Range lo hi => if in_range lo hi c then Eps else Void
  | Alt r1 r2 => mkAlt (deriv c r1) (deriv c r2)
  | Seq r1 r2 =>
      if nullable r1
      then mkAlt (mkSeq (deriv c r1) r2) (deriv c r2)
      else mkSeq (deriv c r1) r2
  | Star r1 => mkSeq (deriv c r1) (Star r1)
  end.

(** The whole of [s] matches [r]: [/^r$/.test(s)]. *)
Fixpoint matches (r : regex) (s : string) : bool :=
  match s with
  | EmptyString => nullable r
  | String c s' => matches (deriv c r) s'
  end.

(** [/^r/.test(s)]: a prefix of [s] matches. *)
Definition test_prefix (r : regex) (s : string) : bool :=
  matches (Seq r (Star Any)) s.

(** [/r/.test(s)]: some substring of [s] matches. *)
Definition test (r : regex) (s : string) : bool :=
  matches (Seq (Star Any) (Seq r (Star Any))) s.

(** [/r/i.test(s)] and [/^r/i.test(s)] for a pattern [r] written in
    lower case. *)
Definition test_i (r : regex) (s : string) : bool := test r (Str.toLowerCase s).
Definition test_prefix_i (r : regex) (s : string) : bool :=
  test_prefix r (Str.toLowerCase s).

(** The meaning of a regular expression: the strings it denotes. *)
Inductive Matches : regex -> string -> Prop :=
| MEps : Matches Eps EmptyString
| MRange lo hi c :
    in_range lo hi c = true -> Matches (Range lo hi) (String c EmptyString)
| MAltL r1 r2 s : Matches r1 s -> Matches (Alt r1 r2) s
| MAltR r1 r2 s : Matches r2 s -> Matches (Alt r1 r2) s
| MSeq r1 r2 s1 s2 :
    Matches r1 s1 -> Matches r2 s2 -> Matches (Seq r1 r2) (s1 ++ s2)
| MStarNil r : Matches (Star r) EmptyString
| MStarApp r s1 s2 :
    Matches r s1 -> Matches (Star r) s2 -> Matches (Star r) (s1 ++ s2).

Definition digit : regex := Range "0" "9".
Definition lowerAZ : regex := Range "a" "z".
Definition upperAZ : regex := Range "A" "Z".
Definition alnum : regex := OneOf [lowerAZ; upperAZ; digit].
(** Whether every character admitted by a range of [r] satisfies [ok]. *)
Fixpoint over (ok : ascii -> bool) (r : regex) : bool :=
  match r with
  | Void | Eps => true
  | Range lo hi =>
      forallb (fun n => let c := ascii_of_nat n in negb (in_range lo hi c) || ok c)
              (seq 0 256)
  | Alt r1 r2 | Seq r1 r2 => over ok r1 && over ok r2
  | Star r1 => over ok r1
  end.

(** An upper bound on the length of the strings [r] matches, when its
    shape gives one. *)
Fixpoint max_len (r : regex) : option nat :=
  match r with
  | Void | Eps => Some O
  | Range _ _ => Some 1%nat
  | Alt r1 r2 =>
      match max_len r1, max_len r2 with
      | Some a, Some b => Some (Nat.max a b)
      | _, _ => None
      end
  | Seq r1 r2 =>
      match max_len r1, max_len r2 with
      | Some a, Some b => Some (a + b)%nat
      | _, _ => None
      end
  | Star _ => None
  end.

End Regex.

(** ** utils/constants.js *)

Module Constants.
Import Regex.
Local Open Scope string_scope.

(** [(?:25[0-5]|2[0-4][0-9]|[01]?[0-9][0-9]?)] *)
Definition octet : regex :=
  OneOf [ Seq (Lit "25") (Range "0" "5");
          Seq (Chr "2") (Seq (Range "0" "4") digit);
          Seq (Opt (Range "0" "1")) (Seq digit (Opt digit)) ].

(** [REGEX.IPV4 = /^(?:octet\.){3}octet$/] *)
Definition REGEX_IPV4 : regex := Seq (Exactly 3 (Seq octet (Chr "."))) octet.

Definition hexdigit : regex := OneOf [digit; Range "a" "f"; Range "A" "F"].

(** [REGEX.IPV6 = /^([0-9a-fA-F]{1,4}:){7}[0-9a-fA-F]{1,4}$/] *)
Definition REGEX_IPV6 : regex :=
  Seq (Exactly 7 (Seq (Between 1 4 hexdigit) (Chr ":"))) (Between 1 4 hexdigit).

(** [DEFAULT_PORTS = { 'http:': 80, 'https:': 443 }] *)
Definition DEFAULT_PORTS (protocol : string) : option Z :=
  if String.eqb protocol "http:" then Some 80
  else if String.eqb protocol "https:" then Some 443
  else None.
End Constants.

(** ** services/network/urlValidator.js *)

Module URLValidator.
Import Regex.
Local Open Scope string_scope.

(** What the platform's [URL] class exposes of a parsed URL. *)
Record URL : Type := mkURL {
  protocol : string;   (* with the trailing colon *)
  hostname : string;
  port : string;       (* empty when absent or default *)
  pathname : string;
  search : string
}.

(** The platform the validator runs on: [new URL(s)] ([None] when it
    throws) and [dns.lookup(host)] raced against the 5 s timer ([None]
    when it resolves, [Some msg] when it rejects with message [msg]). *)
Record Platform : Type := mkPlatform {
  new_URL : string -> option URL;
  resolveDNS : string -> option string
}.

Record Metadata : Type := mkMetadata {
  hasWww : bool;
  isIP : bool;
  defaultPort : bool
}.

(** [parsedUrl.port || DEFAULT_PORTS[parsedUrl.protocol]]: the port string
    of the URL, else the default port number, else [undefined]. *)
Inductive PortValue : Type :=
| PortString (s : string)
| PortNumber (n : Z)
| PortUndefined.

Record ValidUrl : Type := mkValidUrl {
  v_url : string;
  v_normalizedUrl : string;
  v_protocol : string;
  v_hostname : string;
  v_port : PortValue;
  v_metadata : Metadata
}.

(** The result of [_validateSingleUrl]. *)
Inductive SingleResult : Type :=
| SingleInvalid (errors : list string)
| SingleValid (v : ValidUrl).

(** The result of [validateAndNormalize]. *)
Inductive ValidationResult : Type :=
| Invalid (errors : list (string * list string)) (suggestions : list string)
| InternalError (errors : list string)
| Valid (v : ValidUrl) (isHttps : bool).

(** [_cleanInput]: throws ([None]) on a missing or empty input. *)
Definition _cleanInput (input : option string) : option string :=
  match input with
  | None => None
  | Some s => if Str.truthy s then Some (Str.toLowerCase (Str.trim s)) else None
  end.

Definition _generateUrlVariations (cleanUrl : string) : list string :=
  if Str.startsWith cleanUrl "http://" || Str.startsWith cleanUrl "https://" then
    let variations := [cleanUrl] in
    if Str.startsWith cleanUrl "http://"
    then Str.replace cleanUrl "http://" "https://" :: variations   (* unshift *)
    else variations
  else
    let variations := ["https://" ++ cleanUrl; "http://" ++ cleanUrl] in
    if negb (Str.startsWith cleanUrl "www.")
    then List.app variations ["https://www." ++ cleanUrl; "http://www." ++ cleanUrl]
    else variations.

Definition _isIP (hostname : string) : bool :=
  matches Constants.REGEX_IPV4 hostname || matches Constants.REGEX_IPV6 hostname.

(** [/^[a-zA-Z0-9]([a-zA-Z0-9-]{0,61}[a-zA-Z0-9])?] *)
Definition label : regex :=
  Seq alnum (Opt (Seq (UpTo 61 (OneOf [alnum; Chr "-"])) alnum)).

Definition domainRegex : regex := Seq label (Star (Seq (Chr ".") label)).

Definition _isValidHostname (hostname : string) : bool :=
  if _isIP hostname then true
  else matches domainRegex hostname && (String.length hostname <=? 253)%nat.

(** [parts[i]] of [hostname.split('.').map(Number)]; [None] is NaN or
    [undefined], which compare false with every number. *)
Definition part (parts : list (option Z)) (i : nat) : option Z :=
  match nth_error parts i with
  | Some p => p
  | None => None
  end.

Definition num_eq (p : option Z) (n : Z) : bool :=
  match p with Some z => Z.eqb z n | None => false end.
Definition num_ge (p : option Z) (n : Z) : bool :=
  match p with Some z => Z.leb n z | None => false end.
Definition num_le (p : option Z) (n : Z) : bool :=
  match p with Some z => Z.leb z n | None => false end.

Definition _isPrivateIP (hostname : string) : bool :=
  if negb (matches Constants.REGEX_IPV4 hostname) then false
  else
    let parts := map Str.Number (Str.split hostname ".") in
    num_eq (part parts 0) 10 ||
    (num_eq (part parts 0) 172 && num_ge (part parts 1) 16 && num_le (part parts 1) 31) ||
    (num_eq (part parts 0) 192 && num_eq (part parts 1) 168) ||
    num_eq (part parts 0) 127 ||      (* localhost *)
    num_eq (part parts 0) 0.          (* 0.0.0.0 *)

(** [parsedUrl.port !== DEFAULT_PORTS[protocol]] compares a string with a
    number and is always true, so a non-empty port is always appended. *)
Definition _normalizeUrl (u : URL) : string :=
  let normalized := protocol u ++ "//" ++ hostname u in
  let normalized :=
    if Str.truthy (port u) then normalized ++ ":" ++ port u else normalized in
  let pathname' := if String.eqb (pathname u) "/" then EmptyString else pathname u in
  let normalized := normalized ++ pathname' in
  if Str.truthy (search u) then normalized ++ search u else normalized.

Definition push_if {A} (c : bool) (x : A) (l : list A) : list A :=
  if c then List.app l [x] else l.

Definition _validateSingleUrl (P : Platform) (testUrl : string) : SingleResult :=
  match new_URL P testUrl with
  | None => SingleInvalid ["URL malformada"]
  | Some parsedUrl =>
      let errors := [] in
      let errors :=
        push_if (negb (existsb (String.eqb (protocol parsedUrl)) ["http:"; "https:"]))
                "Protocolo deve ser HTTP ou HTTPS" errors in
      let errors :=
        push_if (negb (Str.truthy (hostname parsedUrl))) "Hostname inválido" errors in
      let errors :=
        push_if (Str.truthy (hostname parsedUrl)
                 && negb (_isValidHostname (hostname parsedUrl)))
                "Formato do hostname inválido" errors in
      let errors :=
        push_if (_isPrivateIP (hostname parsedUrl))
                "IPs privados não são permitidos" errors in
      let errors :=
        match resolveDNS P (hostname parsedUrl) with
        | None => errors
        | Some msg => List.app errors ["DNS não resolve: " ++ msg]
        end in
      if Nat.ltb 0 (List.length errors) then SingleInvalid errors
      else
        SingleValid {|
          v_url := testUrl;
          v_normalizedUrl := _normalizeUrl parsedUrl;
          v_protocol := protocol parsedUrl;
          v_hostname := hostname parsedUrl;
          v_port :=
            if Str.truthy (port parsedUrl) then PortString (port parsedUrl)
            else match Constants.DEFAULT_PORTS (protocol parsedUrl) with
                 | Some n => PortNumber n
                 | None => PortUndefined
                 end;
          v_metadata := {|
            hasWww := Str.startsWith (hostname parsedUrl) "www.";
            isIP := _isIP (hostname parsedUrl);
            defaultPort := negb (Str.truthy (port parsedUrl))
          |}
        |}
  end.

(** [[...new Set(l)]]: duplicates removed, first occurrences kept. *)
Fixpoint dedup (l : list string) (seen : list string) : list string :=
  match l with
  | [] => []
  | x :: l' =>
      if existsb (String.eqb x) seen then dedup l' seen
      else x :: dedup l' (x :: seen)
  end.

Definition commonTypos : list (string * string) :=
  [ ("htttp://", "http://"); ("htp://", "http://"); ("https//", "https://");
    (".co", ".com"); (".con", ".com") ].

Definition _generateSuggestions (input : string) : list string :=
  let suggestions := [] in
  let suggestions :=
    if negb (Str.includes input ".")
    then List.app suggestions [input ++ ".com"; input ++ ".org"; input ++ ".net"]
    else suggestions in
  let suggestions :=
    if negb (Str.startsWith input "www.") && Str.includes input "."
    then List.app suggestions ["www." ++ input]
    else suggestions in
  let suggestions :=
    fold_left
      (fun acc '(typo, correction) =>
         if Str.includes input typo
         then List.app acc [Str.replace input typo correction]
         else acc)
      commonTypos suggestions in
  dedup suggestions [].

(** The loop of [validateAndNormalize] over the candidate URLs: the first
    valid candidate ends it, the errors of the others are collected. *)
Fixpoint try_variations (P : Platform) (variations : list string)
         (validationErrors : list (string * list string))
  : option ValidUrl * list (string * list string) :=
  match variations with
  | [] => (None, validationErrors)
  | variation :: rest =>
      match _validateSingleUrl P variation with
      | SingleValid v => (Some v, validationErrors)
      | SingleInvalid errors =>
          try_variations P rest (List.app validationErrors [(variation, errors)])
      end
  end.

Definition validateAndNormalize (P : Platform) (inputUrl : option string)
  : ValidationResult :=
  match _cleanInput inputUrl with
  | None => InternalError ["Erro interno na validação da URL"]
  | Some cleanUrl =>
      let urlVariations := _generateUrlVariations cleanUrl in
      match try_variations P urlVariations [] with
      | (None, validationErrors) =>
          Invalid validationErrors (_generateSuggestions cleanUrl)
      | (Some validatedUrl, _) =>
          Valid validatedUrl (String.eqb (v_protocol validatedUrl) "https:")
      end
  end.

(** A platform given by a table of parsed URLs, on which every host
    resolves. *)
Definition table_platform (table : list (string * URL)) : Platform :=
  {| new_URL := fun s =>
       match find (fun e => String.eqb (fst e) s) table with
       | Some e => Some (snd e)
       | None => None
       end;
     resolveDNS := fun _ => None |}.

(** How the platform parses the URLs of the examples. *)
Definition example_urls : list (string * URL) :=
  [ ("https://192.168.1.1", mkURL "https:" "192.168.1.1" EmptyString "/" EmptyString);
    ("http://192.168.1.1", mkURL "http:" "192.168.1.1" EmptyString "/" EmptyString);
    ("https://localhost", mkURL "https:" "localhost" EmptyString "/" EmptyString);
    ("http://localhost", mkURL "http:" "localhost" EmptyString "/" EmptyString);
    ("https://example.com", mkURL "https:" "example.com" EmptyString "/" EmptyString) ].

(** The validated URL that [https://host] yields for a host name. *)
Definition https_result (host : string) : ValidUrl :=
  {| v_url := "https://" ++ host;
     v_normalizedUrl := "https://" ++ host;
     v_protocol := "https:";
     v_hostname := host;
     v_port := PortNumber 443;
     v_metadata := {| hasWww := false; isIP := false; defaultPort := true |} |}.

(** The error message of the private-address check. *)
Definition private_ip_error : string := "IPs privados não são permitidos".

(** The dotted-quad text of the IPv4 address [a.b.c.d]. *)
Definition dotted (a b c d : nat) : string :=
  Str.decimal a ++ "." ++ Str.decimal b ++ "." ++ Str.decimal c ++ "." ++ Str.decimal d.

(** The address blocks 10.0.0.0/8, 172.16.0.0/12, 192.168.0.0/16,
    127.0.0.0/8 and 0.0.0.0/8, by the first two octets. *)
Definition in_blocked_range (a b : Z) : bool :=
  Z.eqb a 10 || (Z.eqb a 172 && Z.leb 16 b && Z.leb b 31)
  || (Z.eqb a 192 && Z.eqb b 168) || Z.eqb a 127 || Z.eqb a 0.

(** The characters [[A-Za-z0-9.:-]]. *)
Definition hostname_char (c : ascii) : bool :=
  matches (OneOf [alnum; Chr "."; Chr "-"; Chr ":"]) (String c EmptyString).

End URLValidator.

(** ** services/network/errorHandler.js

    The error objects keep the fields that classification reads and
    writes; the user-facing texts ([userMessage], [technicalMessage],
    [suggestions]) are not part of the model. *)

Module NetworkErrorHandler.
Local Open Scope string_scope.
Local Open Scope Z_scope.

Record Response : Type := mkResponse {
  status : Z;
  statusText : string
}.

(** The error thrown by the HTTP library. *)
Record RequestError : Type := mkRequestError {
  message : string;
  code : option string;
  response : option Response;   (* [error.response] *)
  request : bool                (* whether [error.request] is set *)
}.

Record ProcessedError : Type := mkProcessedError {
  p_type : option string;
  p_category : string;
  p_severity : string;
  p_status : option Z;
  p_code : option string
}.

Definition code_is (c : option string) (s : string) : bool :=
  match c with Some c' => String.eqb c' s | None => false end.

Definition _handleHttpError (error : RequestError) (r : Response)
           (processedError : ProcessedError) : ProcessedError :=
  let status := status r in
  let '(category, severity) :=
    if (400 <=? status) && (status <? 500)
    then ("client_error", if status =? 404 then "warning" else "error")
    else if 500 <=? status
    then ("server_error", "error")
    else (p_category processedError, p_severity processedError) in
  {| p_type := Some "http_response";
     p_category := category;
     p_severity := severity;
     p_status := Some status;
     p_code := p_code processedError |}.

Definition _handleRequestError (error : RequestError)
           (processedError : ProcessedError) : ProcessedError :=
  let code := code error in
  let message := Str.toLowerCase (message error) in
  let '(category, severity) :=
    if code_is code "ENOTFOUND" || Str.includes message "getaddrinfo"
    then ("dns", "error")
    else if code_is code "ECONNREFUSED"
    then ("connection", "error")
    else if code_is code "ETIMEDOUT" || Str.includes message "timeout"
    then ("timeout", "warning")
    else if code_is code "ECONNRESET"
    then ("connection", "error")
    else if Str.includes message "certificate" || Str.includes message "ssl"
            || Str.includes message "tls"
    then ("ssl", "error")
    else if code_is code "EHOSTUNREACH" || code_is code "ENETUNREACH"
    then ("network", "error")
    else ("network", "error") in
  {| p_type := Some "network";
     p_category := category;
     p_severity := severity;
     p_status := p_status processedError;
     p_code := code |}.

Definition _handleGenericError (error : RequestError)
           (processedError : ProcessedError) : ProcessedError :=
  {| p_type := Some "generic";
     p_category := "application";
     p_severity := "error";
     p_status := p_status processedError;
     p_code := p_code processedError |}.

Definition processNetworkError (error : RequestError) : ProcessedError :=
  let processedError :=
    {| p_type := None; p_category := "network"; p_severity := "error";
       p_status := None; p_code := None |} in
  match response error with
  | Some r => _handleHttpError error r processedError
  | None =>
      if request error then _handleRequestError error processedError
      else _handleGenericError error processedError
  end.

(** [[408, 429, 502, 503, 504].includes(status)] *)
Definition retryable_statuses : list Z := [408; 429; 502; 503; 504].

Definition isRecoverableError (error : ProcessedError) : bool :=
  if String.eqb (p_category error) "timeout"
     || String.eqb (p_category error) "connection"
  then true
  else
    match p_status error with
    | Some st =>
        if negb (st =? 0) && existsb (Z.eqb st) retryable_statuses
        then true else false
    | None => false
    end.

(** A refused connection, as the HTTP library reports it. *)
Definition connection_refused : RequestError :=
  {| message := "connect ECONNREFUSED 93.184.216.34:443";
     code := Some "ECONNREFUSED";
     response := None;
     request := true |}.

End NetworkErrorHandler.

(** ** services/network/httpClient.js

    The request itself is the platform's; a run of the fetcher is
    parameterised by what each call of [axios.get] produces, and records
    the timer waits and the requests it makes. *)

Module HttpClient.
Import NetworkErrorHandler.

Inductive Event : Type :=
| Delay (ms : Z)            (* [await this._delay(ms)] *)
| Request (attempt : nat).  (* [await axios.get(url, ...)] *)

(** The outcome of one [axios.get]. *)
Inductive Outcome : Type :=
| Resolved (r : Response)
| Rejected (e : RequestError).

(** What the [attempt]-th call of [axios.get] produces. *)
Definition Network : Type := nat -> Outcome.

(** How [_makeRequestWithRetry] ends: it returns the response or throws
    [lastError] ([None] when [lastError] is still [undefined]). *)
Inductive Completion : Type :=
| Return (r : Response)
| Throw (lastError : option RequestError).

Definition _isNonRetryableError (error : RequestError) : bool :=
  match response error with
  | None => false
  | Some r =>
      let status := status r in
      (400 <=? status) && (status <? 500)
      && negb (existsb (Z.eqb status) [408; 429])
  end.

(** The [for (let attempt = 1; attempt <= maxRetries; attempt++)] loop;
    [remaining] counts the iterations left, [maxRetries - attempt + 1]. *)
Fixpoint retry_loop (net : Network) (remaining attempt : nat)
         (lastError : option RequestError) (trace : list Event)
  : Completion * list Event :=
  match remaining with
  | O => (Throw lastError, trace)
  | S remaining' =>
      let trace :=
        if (1 <? attempt)%nat
        then (trace ++ [Delay (Z.of_nat attempt * 1000)])%list
        else trace in
      let trace := (trace ++ [Request attempt])%list in
      match net attempt with
      | Resolved r => (Return r, trace)
      | Rejected error =>
          if _isNonRetryableError error
          then (Throw (Some error), trace)             (* break *)
          else retry_loop net remaining' (S attempt) (Some error) trace
      end
  end.

Definition _makeRequestWithRetry (net : Network) (maxRetries : nat)
  : Completion * list Event :=
  retry_loop net maxRetries 1%nat None [].

(** The default value of the [maxRetries] parameter. *)
Definition default_maxRetries : nat := 3.

(** The result of [get]: the response, the processed error that is
    thrown, or the [TypeError] of processing an [undefined] error. *)
Inductive GetResult : Type :=
| GetResponse (r : Response)
| GetError (e : ProcessedError)
| GetTypeError.

(** [get(url)]: the response as received ([_processResponse] only
    reshapes it) or the classified error. *)
Definition get (net : Network) : GetResult * list Event :=
  match _makeRequestWithRetry net default_maxRetries with
  | (Return r, trace) => (GetResponse r, trace)
  | (Throw (Some error), trace) => (GetError (processNetworkError error), trace)
  | (Throw None, trace) => (GetTypeError, trace)
  end.

(** The trace of [n] consecutive attempts starting with attempt [a]: each
    attempt after the first waits [attempt * 1000] ms and then requests. *)
Fixpoint schedule_from (a n : nat) : list Event :=
  match n with
  | O => []
  | S n' =>
      ((if (1 <? a)%nat then [Delay (Z.of_nat a * 1000)] else [])
         ++ [Request a] ++ schedule_from (S a) n')%list
  end.

Definition schedule (n : nat) : list Event := schedule_from 1 n.

(** A failed attempt that produced an HTTP 4xx response other than 408 or
    429. *)
Definition client_error_response (o : Outcome) : Prop :=
  exists e r, o = Rejected e /\ response e = Some r /\
              400 <= status r < 500 /\ status r <> 408 /\ status r <> 429.

(** A network on which every request is answered with 404 as an error. *)
Definition always_404 : Network :=
  fun _ => Rejected (mkRequestError "Request failed with status code 404" None
                                    (Some (mkResponse 404 "Not Found")) true).

(** The requests of a trace, in order. *)
Fixpoint requests (trace : list Event) : list nat :=
  match trace with
  | [] => []
  | Request a :: t => a :: requests t
  | Delay _ :: t => requests t
  end.
(** [validateStatus: (status) => status < 600] of the default
    configuration: the statuses for which the HTTP library resolves the
    request instead of rejecting it. *)
Definition validateStatus (status : Z) : bool := status <? 600.

(** The time a trace spends in [_delay], in milliseconds. *)
Fixpoint total_delay (trace : list Event) : Z :=
  match trace with
  | [] => 0
  | Delay ms :: t => ms + total_delay t
  | Request _ :: t => total_delay t
  end.

End HttpClient.

(** ** services/security/sslAnalyzer.js: the certificate chain

    A peer certificate is an object whose [issuerCertificate] property
    refers to another certificate object, possibly itself.  Objects live
    in a store and are compared by reference. *)

Module SSLAnalyzer.
Local Open Scope string_scope.

Definition ref : Type := nat.

Record Certificate : Type := mkCertificate {
  subject : option string;           (* [JSON.stringify(cert.subject)], if set *)
  issuer : option string;            (* [JSON.stringify(cert.issuer)], if set *)
  issuerCertificate : option ref
}.

Definition Store : Type := ref -> Certificate.

(** [cert.issuerCertificate && cert.issuerCertificate !== cert]: the
    certificate to move on to, if any. *)
Definition next (h : Store) (cert : ref) : option ref :=
  match issuerCertificate (h cert) with
  | Some i => if (i =? cert)%nat then None else Some i
  | None => None
  end.

(** [_calculateChainLength(cert, count)]: the recursion unfolded at most
    [fuel] times; [None] when it has not returned by then. *)
Fixpoint _calculateChainLength (fuel : nat) (h : Store) (cert : ref) (count : nat)
  : option nat :=
  match fuel with
  | O => None
  | S fuel' =>
      match next h cert with
      | Some i => _calculateChainLength fuel' h i (count + 1)
      | None => Some count
      end
  end.

(** The [while] loop of [_isChainComplete], run for at most [fuel]
    evaluations of its condition; [None] when it is still running. *)
Fixpoint chain_root (fuel : nat) (h : Store) (current : ref) : option ref :=
  match fuel with
  | O => None
  | S fuel' =>
      match next h current with
      | Some i => chain_root fuel' h i
      | None => Some current
      end
  end.

Definition self_signed (c : Certificate) : bool :=
  match subject c, issuer c with
  | Some s, Some i => String.eqb s i
  | _, _ => false
  end.

Definition _isChainComplete (fuel : nat) (h : Store) (cert : ref) : option bool :=
  match chain_root fuel h cert with
  | Some current => Some (self_signed (h current))
  | None => None
  end.

(** [_analyzeChain]: the chain is walked only when the certificate has an
    issuer certificate other than itself; the result is the chain length,
    whether the chain is complete, and the finding on an incomplete
    chain.  [None] when a walk has not returned within [fuel] steps. *)
Definition _analyzeChain (fuel : nat) (h : Store) (cert : ref)
  : option (nat * bool * list Vulnerability) :=
  match next h cert with
  | None => Some (0%nat, false, [])
  | Some _ =>
      match _calculateChainLength fuel h cert 1, _isChainComplete fuel h cert with
      | Some len, Some isComplete =>
          Some (len, isComplete,
                if isComplete then []
                else [mkVulnerability "incomplete_chain" Medium])
      | _, _ => None
      end
  end.






End SSLAnalyzer.

(** ** config/security.js *)

Module Security.
Local Open Scope string_scope.

Definition COOKIE_SECURITY_dangerousNames : list string :=
  ["password"; "token"; "session"; "auth"; "csrf"].

(** 24 hours in milliseconds *)
Definition COOKIE_SECURITY_maxAge : JS.number := JS.int 86400000.
End Security.

(** ** services/security/headerAnalyzer.js: the grade *)

Module HeaderAnalyzer.
Definition _calculateGrade (score : JS.number) : Grade :=
  if JS.geb score (JS.int 90) then GradeAplus
  else if JS.geb score (JS.int 80) then GradeA
  else if JS.geb score (JS.int 70) then GradeB
  else if JS.geb score (JS.int 60) then GradeC
  else if JS.geb score (JS.int 50) then GradeD
  else GradeF.
End HeaderAnalyzer.

(** ** services/security/cookieAnalyzer.js *)

Module CookieAnalyzer.
Import Regex.
Local Open Scope string_scope.

(** A cookie as the Set-Cookie parser returns it. *)
Record Cookie : Type := mkCookie {
  name : string;
  value : string;
  domain : option string;
  path : option string;
  secure : bool;
  httpOnly : bool;
  sameSite : option string;
  maxAge : option JS.number;      (* seconds *)
  expires : option JS.number      (* [expires.getTime()] of the Date *)
}.

(** The [cookieHeaders] argument: missing, one header string, or an
    array of header strings. *)
Inductive CookieHeaders : Type :=
| Missing
| Single (s : string)
| Many (l : list string).

(** What the analyzer takes from outside: the Set-Cookie parser, whether
    [new URL(url)] succeeds, and the clock. *)
Record Platform : Type := mkPlatform {
  setCookie_parse : CookieHeaders -> list Cookie;
  new_URL_ok : string -> bool;
  now : JS.number
}.

(** The analysis of one cookie (without its descriptive [explanation]
    text). *)
Record SingleAnalysis : Type := mkSingleAnalysis {
  a_name : string;
  a_value : string;
  a_domain : option string;
  a_path : string;
  a_secure : bool;
  a_httpOnly : bool;
  a_sameSite : option string;
  a_maxAge : option JS.number;
  a_expires : option JS.number;
  a_hasExpiration : bool;
  a_isSession : bool;
  a_isPersistent : bool;
  a_vulnerabilities : list Vulnerability;
  a_recommendations : list string;
  a_securityLevel : string;
  a_isSensitive : bool;
  a_duration : option JS.number;
  a_isEncoded : bool;
  a_isWildcardDomain : bool;
  a_isBroadPath : bool
}.

Record Summary : Type := mkSummary {
  s_secure : nat;
  s_httpOnly : nat;
  s_sameSite : nat;
  s_withExpiration : nat;
  s_sessionCookies : nat;
  s_persistent : nat
}.

(** The object [analyzeCookies] returns; the fields that one of its
    three shapes lacks are [None]. *)
Record Analysis : Type := mkAnalysis {
  url : string;
  hasCookies : bool;
  count : nat;
  cookies : list SingleAnalysis;
  vulnerabilities : option (list Vulnerability);
  recommendations : option (list string);
  score : JS.number;
  grade : Grade;
  summary : option Summary;
  error : option string
}.

Definition sensitivePatterns : list regex :=
  [ Lit "session"; Lit "auth"; Lit "token"; Lit "csrf"; Lit "password";
    Lit "login"; Lit "user"; Lit "admin"; Lit "secure"; Lit "private";
    Lit "jwt"; Lit "bearer"; Lit "oauth";
    Seq (Lit "api") (Seq (Opt (OneOf [Chr "_"; Chr "-"])) (Lit "key")) ].

Definition _isSensitiveCookie (name : string) : bool :=
  existsb (fun pattern => test_i pattern name) sensitivePatterns
  || existsb (fun dangerous => Str.includes (Str.toLowerCase name) dangerous)
             Security.COOKIE_SECURITY_dangerousNames.

Definition trackingPatterns : list (bool * regex) :=   (* anchored at the start? *)
  [ (true, Lit "_ga"); (true, Lit "_gtm"); (true, Lit "_gid");
    (true, Lit "_fbp"); (true, Lit "_fbc");
    (false, Lit "track"); (false, Lit "analytics"); (false, Lit "pixel");
    (false, Lit "campaign"); (false, Lit "utm_"); (false, Lit "visitor");
    (false, Lit "affiliate") ].

Definition _isTrackingCookie (name : string) : bool :=
  existsb (fun p : bool * regex =>
             if fst p then test_prefix_i (snd p) name else test_i (snd p) name)
          trackingPatterns.

Definition _isEncodedValue (value : string) : bool :=
  let base64Pattern := Seq (Plus (OneOf [alnum; Chr "+"; Chr "/"])) (Star (Chr "=")) in
  let hexPattern := Plus Constants.hexdigit in
  let hasRandomChars := test (AtLeast 20 alnum) value in
  (matches base64Pattern value && (10 <? String.length value)%nat)
  || (matches hexPattern value && (16 <? String.length value)%nat)
  || hasRandomChars.

(** [cookie.maxAge || cookie.expires] as a condition: a Date object is
    always truthy. *)
Definition has_lifetime (cookie : Cookie) : bool :=
  match maxAge cookie, expires cookie with
  | Some n, Some _ => true
  | Some n, None => JS.truthy n
  | None, Some _ => true
  | None, None => false
  end.

Definition _calculateCookieDuration (P : Platform) (cookie : Cookie) : JS.number :=
  match maxAge cookie with
  | Some n =>
      if JS.truthy n then JS.mul n (JS.int 1000)
      else match expires cookie with
           | Some t => JS.sub t (now P)
           | None => JS.int 0
           end
  | None =>
      match expires cookie with
      | Some t => JS.sub t (now P)
      | None => JS.int 0
      end
  end.

Definition vuln (t : string) (s : Severity) : Vulnerability := mkVulnerability t s.

Definition push_if {A} (c : bool) (x : A) (l : list A) : list A :=
  if c then List.app l [x] else l.

Definition count_severity (s : Severity) (l : list Vulnerability) : nat :=
  List.length (filter (fun v => severity_eqb (severity v) s) l).

Definition _determineCookieSecurityLevel
           (hasSecure hasHttpOnly hasSameSite : bool) (vs : list Vulnerability) : string :=
  let criticalVulns := count_severity Critical vs in
  let highVulns := count_severity High vs in
  if (0 <? criticalVulns)%nat then "critical"
  else if (0 <? highVulns)%nat then "insecure"
  else if hasSecure && hasHttpOnly && hasSameSite then "secure"
  else if hasSecure && hasHttpOnly then "moderate"
  else "insecure".

(** [cookie.sameSite || null] *)
Definition sameSite_or_null (cookie : Cookie) : option string :=
  match sameSite cookie with
  | Some s => if Str.truthy s then Some s else None
  | None => None
  end.

(** [cookie.path || '/'] *)
Definition path_or_root (cookie : Cookie) : string :=
  match path cookie with
  | Some p => if Str.truthy p then p else "/"
  | None => "/"
  end.

Definition strip_leading_dot (s : string) : string :=   (* [s.replace(/^\./, '')] *)
  if Str.startsWith s "." then Str.drop 1 s else s.

(** [_analyzeSingleCookie]; [None] when [new URL(url)] throws in
    [_analyzeCookieScope]. *)
Definition _analyzeSingleCookie (P : Platform) (cookie : Cookie) (url : string)
  : option SingleAnalysis :=
  let secure := secure cookie in
  let httpOnly := httpOnly cookie in
  let sameSite := sameSite_or_null cookie in
  let path := path_or_root cookie in
  let isPersistent := has_lifetime cookie in
  let isSensitive := _isSensitiveCookie (name cookie) in
  let vs : list Vulnerability := [] in
  let recs : list string := [] in
  (* Secure flag *)
  let vs := push_if (negb secure)
              (vuln "missing_secure_flag" (if isSensitive then Critical else High)) vs in
  (* HttpOnly flag *)
  let vs := push_if (negb httpOnly)
              (vuln "missing_httponly_flag" (if isSensitive then High else Medium)) vs in
  (* SameSite *)
  let vs :=
    match sameSite with
    | None => List.app vs [vuln "missing_samesite" Medium]
    | Some s =>
        push_if (String.eqb (Str.toLowerCase s) "none" && negb secure)
                (vuln "samesite_none_without_secure" High) vs
    end in
  (* lifetime *)
  let duration :=
    if isPersistent then Some (_calculateCookieDuration P cookie) else None in
  let vs :=
    match duration with
    | Some d =>
        push_if (JS.gtb d Security.COOKIE_SECURITY_maxAge)
                (vuln "excessive_cookie_lifetime" Medium) vs
    | None => vs
    end in
  (* _analyzeCookieValue *)
  let value := value cookie in
  let isEncoded := _isEncodedValue value in
  let recs :=
    push_if isEncoded "Valor aparenta estar codificado - boa prática" recs in
  let vs := push_if (negb isEncoded && isSensitive)
              (vuln "unencoded_sensitive_cookie" Medium) vs in
  let vs := push_if (4096 <? String.length value)%nat
              (vuln "oversized_cookie" Low) vs in
  let vs :=
    push_if (test (OneOf [Chr "<"; Chr ">"; Chr (ascii_of_nat 34); Chr "'"; Chr "&"]) value)
            (vuln "suspicious_characters" Low) vs in
  (* _analyzeCookieScope *)
  if negb (new_URL_ok P url) then None
  else
    let domain_set :=
      match domain cookie with Some d => Str.truthy d | None => false end in
    let d := match domain cookie with Some d => d | None => EmptyString end in
    let isWildcardDomain := domain_set && Str.startsWith d "." in
    let recs :=
      push_if isWildcardDomain
              "Cookie com domínio wildcard - verifique se é necessário" recs in
    let domainParts := Str.split (strip_leading_dot d) "." in
    let vs := push_if (domain_set && (List.length domainParts <=? 2)%nat)
                (vuln "overly_broad_domain" Low) vs in
    let isBroadPath := String.eqb path "/" in
    let vs := push_if (isBroadPath && isSensitive)
                (vuln "broad_path_sensitive_cookie" Medium) vs in
    Some {|
      a_name := name cookie;
      a_value := value;
      a_domain := domain cookie;
      a_path := path;
      a_secure := secure;
      a_httpOnly := httpOnly;
      a_sameSite := sameSite;
      a_maxAge := maxAge cookie;
      a_expires := expires cookie;
      a_hasExpiration := isPersistent;
      a_isSession := negb isPersistent;
      a_isPersistent := isPersistent;
      a_vulnerabilities := vs;
      a_recommendations := recs;
      a_securityLevel :=
        _determineCookieSecurityLevel secure httpOnly
          (match sameSite with Some _ => true | None => false end) vs;
      a_isSensitive := isSensitive;
      a_duration := duration;
      a_isEncoded := isEncoded;
      a_isWildcardDomain := isWildcardDomain;
      a_isBroadPath := isBroadPath
    |}.

(** The three findings on the flags of a sensitive cookie. *)
Definition flag_findings : list Vulnerability :=
  [ vuln "missing_secure_flag" Critical;
    vuln "missing_httponly_flag" High;
    vuln "missing_samesite" Medium ].

Definition bump (c : bool) (n : nat) : nat := if c then S n else n.

Definition emptySummary : Summary := mkSummary 0 0 0 0 0 0.

(** The summary update of one loop iteration. *)
Definition updateSummary (s : Summary) (a : SingleAnalysis) : Summary :=
  {| s_secure := bump (a_secure a) (s_secure s);
     s_httpOnly := bump (a_httpOnly a) (s_httpOnly s);
     s_sameSite :=
       bump (match a_sameSite a with Some _ => true | None => false end) (s_sameSite s);
     s_withExpiration := bump (a_hasExpiration a) (s_withExpiration s);
     s_sessionCookies := bump (a_isSession a) (s_sessionCookies s);
     s_persistent := bump (a_isPersistent a) (s_persistent s) |}.

(** The state of the [for (const cookie of cookies)] loop. *)
Record LoopState : Type := mkLoopState {
  l_cookies : list SingleAnalysis;
  l_summary : Summary;
  l_vulnerabilities : list Vulnerability
}.

(** The loop; [None] when [_analyzeSingleCookie] throws. *)
Fixpoint analyzeEach (P : Platform) (url : string) (cookies : list Cookie)
         (st : LoopState) : option LoopState :=
  match cookies with
  | [] => Some st
  | cookie :: rest =>
      match _analyzeSingleCookie P cookie url with
      | None => None
      | Some cookieAnalysis =>
          analyzeEach P url rest
            {| l_cookies := List.app (l_cookies st) [cookieAnalysis];
               l_summary := updateSummary (l_summary st) cookieAnalysis;
               l_vulnerabilities :=
                 List.app (l_vulnerabilities st) (a_vulnerabilities cookieAnalysis) |}
      end
  end.

Definition nat_num (n : nat) : JS.number := JS.int (Z.of_nat n).

(** The findings [_analyzeOverallCookiePatterns] pushes. *)
Definition _analyzeOverallCookiePatterns (st : LoopState) : list Vulnerability :=
  let cookies := l_cookies st in
  let summary := l_summary st in
  let len := List.length cookies in
  let vs := l_vulnerabilities st in
  let vs := push_if (10 <? len)%nat (vuln "excessive_cookies" Low) vs in
  let secureRatio := JS.div (nat_num (s_secure summary)) (nat_num len) in
  let vs := push_if (JS.ltb secureRatio (JS.dec 8 1))
              (vuln "low_secure_cookie_ratio" High) vs in
  let httpOnlyRatio := JS.div (nat_num (s_httpOnly summary)) (nat_num len) in
  let vs := push_if (JS.ltb httpOnlyRatio (JS.dec 6 1))
              (vuln "low_httponly_ratio" Medium) vs in
  let vs := push_if ((s_sessionCookies summary =? 0)%nat
                     && (0 <? s_persistent summary)%nat)
              (vuln "no_session_cookies" Low) vs in
  let trackingCookies := filter (fun c => _isTrackingCookie (a_name c)) cookies in
  push_if (0 <? List.length trackingCookies)%nat
          (vuln "tracking_cookies_detected" Info) vs.

Definition penalty (s : Severity) : option Z :=
  match s with
  | Critical => Some 25
  | High => Some 15
  | Medium => Some 10
  | Low => Some 5
  | Info => Some 2
  | _ => None
  end.

Definition _calculateCookieScore (hasCookies : bool) (len : nat) (summary : Summary)
           (vulnerabilities : list Vulnerability) : JS.number :=
  if negb hasCookies then JS.int 100
  else
    let score := JS.int 100 in
    let score :=
      fold_left
        (fun score vuln =>
           match penalty (severity vuln) with
           | Some p => JS.sub score (JS.int p)
           | None => score
           end)
        vulnerabilities score in
    let secureRatio := JS.div (nat_num (s_secure summary)) (nat_num len) in
    let httpOnlyRatio := JS.div (nat_num (s_httpOnly summary)) (nat_num len) in
    let sameSiteRatio := JS.div (nat_num (s_sameSite summary)) (nat_num len) in
    let score := JS.add score (JS.mul secureRatio (JS.int 10)) in
    let score := JS.add score (JS.mul httpOnlyRatio (JS.int 10)) in
    let score := JS.add score (JS.mul sameSiteRatio (JS.int 5)) in
    JS.Math_max (JS.int 0) (JS.Math_min (JS.int 100) (JS.Math_round score)).

Definition _calculateGrade (score : JS.number) : Grade :=
  if JS.geb score (JS.int 90) then GradeAplus
  else if JS.geb score (JS.int 80) then GradeA
  else if JS.geb score (JS.int 70) then GradeB
  else if JS.geb score (JS.int 60) then GradeC
  else if JS.geb score (JS.int 50) then GradeD
  else GradeF.

Definition _generateRecommendations (hasCookies : bool) (count : nat)
           (summary : Summary) (vulnerabilities : list Vulnerability)
           (score : JS.number) : list string :=
  if negb hasCookies
  then ["Se implementar cookies, use as flags Secure, HttpOnly e SameSite"]
  else
    let recommendations : list string := [] in
    let recommendations :=
      push_if (0 <? count_severity Critical vulnerabilities)%nat
        "CRÍTICO: Corrija imediatamente os problemas de segurança dos cookies"
        recommendations in
    let recommendations :=
      if JS.ltb score (JS.int 50)
      then List.app recommendations
             ["Configuração de cookies inadequada - revisão urgente necessária"]
      else if JS.ltb score (JS.int 70)
      then List.app recommendations
             ["Configuração de cookies precisa de melhorias significativas"]
      else if JS.ltb score (JS.int 90)
      then List.app recommendations
             ["Boa configuração de cookies, algumas otimizações possíveis"]
      else recommendations in
    let recommendations :=
      push_if (s_secure summary <? count)%nat
        "Adicione a flag Secure a todos os cookies" recommendations in
    let recommendations :=
      push_if (JS.ltb (nat_num (s_httpOnly summary))
                      (JS.mul (nat_num count) (JS.dec 8 1)))
        "Adicione a flag HttpOnly aos cookies que não precisam ser acessados via JavaScript"
        recommendations in
    let recommendations :=
      push_if (JS.ltb (nat_num (s_sameSite summary))
                      (JS.mul (nat_num count) (JS.dec 5 1)))
        "Configure o atributo SameSite para todos os cookies" recommendations in
    URLValidator.dedup recommendations [].

Definition _handleAnalysisError (url : string) : Analysis :=
  {| url := url;
     hasCookies := false;
     count := 0;
     cookies := [];
     vulnerabilities := None;
     recommendations := Some ["Erro interno - tente novamente"];
     score := JS.int 0;
     grade := GradeF;
     summary := None;
     error := Some "Erro na análise de cookies" |}.

(** [!cookieHeaders || cookieHeaders.length === 0] *)
Definition no_headers (cookieHeaders : CookieHeaders) : bool :=
  match cookieHeaders with
  | Missing => true
  | Single s => negb (Str.truthy s) || (String.length s =? 0)%nat
  | Many l => (List.length l =? 0)%nat
  end.

Definition analyzeCookies (P : Platform) (cookieHeaders : CookieHeaders) (url : string)
  : Analysis :=
  if no_headers cookieHeaders then
    {| url := url;
       hasCookies := false;
       count := 0;
       cookies := [];
       vulnerabilities := None;
       recommendations := None;
       score := JS.int 100;     (* no cookies, no cookie problems *)
       grade := GradeA;
       summary := None;
       error := None |}
  else
    let cookies := setCookie_parse P cookieHeaders in
    match analyzeEach P url cookies (mkLoopState [] emptySummary []) with
    | None => _handleAnalysisError url
    | Some st =>
        let vulnerabilities := _analyzeOverallCookiePatterns st in
        let score :=
          _calculateCookieScore true (List.length (l_cookies st)) (l_summary st)
                                vulnerabilities in
        {| url := url;
           hasCookies := true;
           count := List.length cookies;
           cookies := l_cookies st;
           vulnerabilities := Some vulnerabilities;
           recommendations :=
             Some (_generateRecommendations true (List.length cookies) (l_summary st)
                                            vulnerabilities score);
           score := score;
           grade := _calculateGrade score;
           summary := Some (l_summary st);
           error := None |}
    end.
End CookieAnalyzer.

(** ** controllers/analysisController.js *)

Module AnalysisController.
Local Open Scope string_scope.

(** *** The HTML analyzer

    The markup is given as the parser library presents it to the
    queries of [_analyzeHTML]: the [form] elements with their [method]
    and [action] attributes and the number of password inputs inside,
    the [script] elements with their [src] attribute, and the number of
    [meta] elements that each selector finds. *)

Record FormElement : Type := mkForm {
  f_method : option string;
  f_action : option string;
  f_passwordInputs : nat
}.

Record ScriptElement : Type := mkScript {
  s_src : option string
}.

Record Document : Type := mkDocument {
  d_forms : list FormElement;
  d_scripts : list ScriptElement;
  d_metaViewport : nat;
  d_metaCharset : nat;
  d_metaContentType : nat
}.

Record HtmlAnalysis : Type := mkHtmlAnalysis {
  h_url : string;
  h_vulnerabilities : list Vulnerability;
  h_recommendations : list string;
  h_forms : nat;      (* number of entries pushed to [analysis.forms] *)
  h_scripts : nat;    (* number of entries pushed to [analysis.scripts] *)
  h_score : JS.number
}.

(** [$form.attr('method')?.toLowerCase() || 'get'] *)
Definition form_method (f : FormElement) : string :=
  match f_method f with
  | Some m => if Str.truthy (Str.toLowerCase m) then Str.toLowerCase m else "get"
  | None => "get"
  end.

(** One iteration of [$('form').each]. *)
Definition analyzeForm (url : string) (analysis : HtmlAnalysis) (form : FormElement)
  : HtmlAnalysis :=
  let method := form_method form in
  let hasPasswordField := (0 <? f_passwordInputs form)%nat in
  let vs : list Vulnerability := [] in
  let score := h_score analysis in
  let '(vs, score) :=
    if hasPasswordField && negb (Str.startsWith url "https://")
    then (List.app vs [mkVulnerability "form_password_no_https" Critical],
          JS.sub score (JS.int 20))
    else (vs, score) in
  let '(vs, score) :=
    if hasPasswordField && String.eqb method "get"
    then (List.app vs [mkVulnerability "password_in_get" Critical],
          JS.sub score (JS.int 25))
    else (vs, score) in
  {| h_url := h_url analysis;
     h_vulnerabilities := List.app (h_vulnerabilities analysis) vs;
     h_recommendations := h_recommendations analysis;
     h_forms := S (h_forms analysis);
     h_scripts := h_scripts analysis;
     h_score := score |}.

(** One iteration of [$('script').each]. *)
Definition analyzeScript (url : string) (analysis : HtmlAnalysis) (script : ScriptElement)
  : HtmlAnalysis :=
  match s_src script with
  | None => analysis
  | Some src =>
      if negb (Str.truthy src) then analysis
      else
        let isExternal := negb (Str.startsWith src "/") && negb (Str.startsWith src url) in
        let isHttps := Str.startsWith src "https://" in
        let flagged := isExternal && negb isHttps && Str.startsWith src "http://" in
        {| h_url := h_url analysis;
           h_vulnerabilities :=
             if flagged
             then List.app (h_vulnerabilities analysis)
                           [mkVulnerability "script_http_external" High]
             else h_vulnerabilities analysis;
           h_recommendations := h_recommendations analysis;
           h_forms := h_forms analysis;
           h_scripts := S (h_scripts analysis);
           h_score :=
             if flagged then JS.sub (h_score analysis) (JS.int 15)
             else h_score analysis |}
  end.

Definition _analyzeHTML (doc : Document) (url : string) : HtmlAnalysis :=
  let analysis :=
    {| h_url := url; h_vulnerabilities := []; h_recommendations := [];
       h_forms := 0; h_scripts := 0;
       h_score := JS.int 80 |} in            (* base score for HTML *)
  let analysis := fold_left (analyzeForm url) (d_forms doc) analysis in
  let analysis := fold_left (analyzeScript url) (d_scripts doc) analysis in
  let hasCharset := (0 <? d_metaCharset doc)%nat || (0 <? d_metaContentType doc)%nat in
  if negb hasCharset
  then {| h_url := h_url analysis;
          h_vulnerabilities :=
            List.app (h_vulnerabilities analysis) [mkVulnerability "missing_charset" Low];
          h_recommendations := h_recommendations analysis;
          h_forms := h_forms analysis;
          h_scripts := h_scripts analysis;
          h_score := JS.sub (h_score analysis) (JS.int 5) |}
  else analysis.

(** *** Aggregation *)

(** What the aggregator reads of a category result; a property that the
    result object lacks is [None]. *)
Record CategoryResult : Type := mkCategoryResult {
  c_score : JS.number;
  c_vulnerabilities : option (list Vulnerability);
  c_recommendations : option (list string)
}.

Definition of_cookies (a : CookieAnalyzer.Analysis) : CategoryResult :=
  {| c_score := CookieAnalyzer.score a;
     c_vulnerabilities := CookieAnalyzer.vulnerabilities a;
     c_recommendations := CookieAnalyzer.recommendations a |}.

Definition of_html (a : HtmlAnalysis) : CategoryResult :=
  {| c_score := h_score a;
     c_vulnerabilities := Some (h_vulnerabilities a);
     c_recommendations := Some (h_recommendations a) |}.

(** [_analyzeSSL] when the URL is not HTTPS. *)
Definition ssl_not_https : CategoryResult :=
  {| c_score := JS.int 0;
     c_vulnerabilities := None;
     c_recommendations := Some ["Use HTTPS para proteger a comunicação"] |}.

(** [_processSettledResult] for a rejected analysis. *)
Definition settled_rejected : CategoryResult :=
  {| c_score := JS.int 0;
     c_vulnerabilities := Some [mkVulnerability "analysis_error" Error];
     c_recommendations := None |}.

Record Analysis : Type := mkAnalysis {
  isHttps : bool;
  ssl : CategoryResult;
  headers : CategoryResult;
  cookies : CategoryResult;
  html : CategoryResult;
  vulnerabilities : list Vulnerability;
  recommendations : list string;
  score : JS.number;
  grade : Grade
}.

Definition or_empty {A} (l : option (list A)) : list A :=
  match l with Some l' => l' | None => [] end.

(** [_consolidateAnalysis]: the findings and the recommendations of the
    four categories, the latter without duplicates. *)
Definition _consolidateAnalysis (analysis : Analysis) : Analysis :=
  {| isHttps := isHttps analysis;
     ssl := ssl analysis;
     headers := headers analysis;
     cookies := cookies analysis;
     html := html analysis;
     vulnerabilities :=
       List.app (or_empty (c_vulnerabilities (ssl analysis)))
         (List.app (or_empty (c_vulnerabilities (headers analysis)))
            (List.app (or_empty (c_vulnerabilities (cookies analysis)))
               (or_empty (c_vulnerabilities (html analysis)))));
     recommendations :=
       URLValidator.dedup
         (List.app (or_empty (c_recommendations (ssl analysis)))
            (List.app (or_empty (c_recommendations (headers analysis)))
               (List.app (or_empty (c_recommendations (cookies analysis)))
                  (or_empty (c_recommendations (html analysis)))))) [];
     score := score analysis;
     grade := grade analysis |}.

(** The [weights] object, in the order [Object.entries] lists it. *)
Definition weights : list (string * JS.number) :=
  [ ("ssl", JS.dec 25 2);        (* 25% *)
    ("headers", JS.dec 35 2);    (* 35% *)
    ("cookies", JS.dec 25 2);    (* 25% *)
    ("html", JS.dec 15 2) ].     (* 15% *)

(** The [scores] object: [x.score || 0] for each category. *)
Definition scores (analysis : Analysis) : list (string * JS.number) :=
  [ ("ssl", JS.or_else (c_score (ssl analysis)) (JS.int 0));
    ("headers", JS.or_else (c_score (headers analysis)) (JS.int 0));
    ("cookies", JS.or_else (c_score (cookies analysis)) (JS.int 0));
    ("html", JS.or_else (c_score (html analysis)) (JS.int 0)) ].

(** [obj[key]] of a number-valued object; a missing property is
    [undefined], which arithmetic turns into NaN. *)
Fixpoint get (obj : list (string * JS.number)) (key : string) : JS.number :=
  match obj with
  | [] => JS.NaN
  | (k, v) :: rest => if String.eqb k key then v else get rest key
  end.

Definition _calculateOverallScore (analysis : Analysis) : JS.number :=
  let scores := scores analysis in
  let weightedScore := JS.int 0 in
  let weightedScore :=
    fold_left
      (fun weightedScore (entry : string * JS.number) =>
         let (category, weight) := entry in
         JS.add weightedScore (JS.mul (get scores category) weight))
      weights weightedScore in
  let criticalCount :=
    List.length (filter (fun v => severity_eqb (severity v) Critical)
                        (vulnerabilities analysis)) in
  let weightedScore :=
    JS.sub weightedScore
           (JS.Math_min (JS.mul (JS.int (Z.of_nat criticalCount)) (JS.int 10))
                        (JS.int 30)) in                    (* at most -30 points *)
  let weightedScore :=
    if negb (isHttps analysis) then JS.sub weightedScore (JS.int 15)
    else weightedScore in
  JS.Math_max (JS.int 0) (JS.Math_min (JS.int 100) (JS.Math_round weightedScore)).

Definition _calculateGrade (score : JS.number) : Grade :=
  if JS.geb score (JS.int 90) then GradeAplus
  else if JS.geb score (JS.int 80) then GradeA
  else if JS.geb score (JS.int 70) then GradeB
  else if JS.geb score (JS.int 60) then GradeC
  else if JS.geb score (JS.int 50) then GradeD
  else GradeF.

(** The end of [analyzeUrl]: the four settled results are consolidated,
    then scored and graded. *)
Definition finish (isHttps : bool) (ssl headers cookies html : CategoryResult)
  : Analysis :=
  let analysis :=
    _consolidateAnalysis
      {| isHttps := isHttps; ssl := ssl; headers := headers;
         cookies := cookies; html := html;
         vulnerabilities := []; recommendations := [];
         score := JS.int 0; grade := GradeF |} in
  let score := _calculateOverallScore analysis in
  {| isHttps := isHttps; ssl := ssl; headers := headers;
     cookies := cookies; html := html;
     vulnerabilities := vulnerabilities analysis;
     recommendations := recommendations analysis;
     score := score;
     grade := _calculateGrade score |}.

(** The weighted sum less the penalties, written out:
    [0.25*ssl + 0.35*headers + 0.25*cookies + 0.15*html
     - min(10*critical, 30) - (15 if not HTTPS)],
    each operation a double-precision one, the sum taken from 0 in the
    order ssl, headers, cookies, html. *)
Definition penalised_sum (s_ssl s_headers s_cookies s_html : JS.number)
           (criticalCount : nat) (isHttps : bool) : JS.number :=
  let weighted :=
    JS.add (JS.add (JS.add (JS.add (JS.int 0)
                                   (JS.mul s_ssl (JS.dec 25 2)))
                           (JS.mul s_headers (JS.dec 35 2)))
                   (JS.mul s_cookies (JS.dec 25 2)))
           (JS.mul s_html (JS.dec 15 2)) in
  let penalised :=
    JS.sub weighted
           (JS.Math_min (JS.mul (JS.int (Z.of_nat criticalCount)) (JS.int 10))
                        (JS.int 30)) in
  if isHttps then penalised else JS.sub penalised (JS.int 15).

(** The overall score in the words of the specification: the penalised
    sum clamped into [0,100]. *)
Definition stated_overallScore (s_ssl s_headers s_cookies s_html : JS.number)
           (criticalCount : nat) (isHttps : bool) : JS.number :=
  JS.clamp (penalised_sum s_ssl s_headers s_cookies s_html criticalCount isHttps).

(** The number of critical findings in a list. *)
Definition criticalCount (vs : list Vulnerability) : nat :=
  List.length (filter (fun v => severity_eqb (severity v) Critical) vs).

(** A category result that carries only a score. *)
Definition score_only (n : Z) : CategoryResult :=
  mkCategoryResult (JS.int n) None None.

(** A page without forms, scripts and charset declaration. *)
Definition bare_page : Document :=
  {| d_forms := []; d_scripts := [];
     d_metaViewport := 0; d_metaCharset := 0; d_metaContentType := 0 |}.

(** A page served over plain HTTP with two login forms that submit with
    GET and no charset declaration. *)
Definition two_login_forms : Document :=
  {| d_forms := [mkForm None (Some "/login") 1; mkForm (Some "GET") (Some "/admin") 1];
     d_scripts := [];
     d_metaViewport := 0; d_metaCharset := 0; d_metaContentType := 0 |}.

(** The [stats] object that [_consolidateAnalysis] attaches to the
    analysis: counts over the consolidated findings. *)
Record Stats : Type := mkStats {
  totalVulnerabilities : nat;
  criticalVulnerabilities : nat;
  highVulnerabilities : nat;
  mediumVulnerabilities : nat;
  lowVulnerabilities : nat
}.

Definition count_of (s : Severity) (vs : list Vulnerability) : nat :=
  List.length (filter (fun v => severity_eqb (severity v) s) vs).

Definition stats (analysis : Analysis) : Stats :=
  let vs := vulnerabilities (_consolidateAnalysis analysis) in
  {| totalVulnerabilities := List.length vs;
     criticalVulnerabilities := count_of Critical vs;
     highVulnerabilities := count_of High vs;
     mediumVulnerabilities := count_of Medium vs;
     lowVulnerabilities := count_of Low vs |}.

End AnalysisController.

(* ================================================================= *)
(** * Part II. Properties *)
(* ================================================================= *)

(** ** The regular-expression matcher

    The derivative matcher decides the denotation [Matches]. *)

Section RegexMatcher.
Import Regex.
Local Open Scope string_scope.

Lemma append_empty (s1 s2 : string) :
  s1 ++ s2 = EmptyString -> s1 = EmptyString /\ s2 = EmptyString.
Proof. destruct s1; [auto | discriminate]. Qed.

Lemma nullable_sound (r : regex) : nullable r = true -> Matches r EmptyString.
Proof.
  induction r; cbn; intros H; try discriminate.
  - constructor.
  - apply orb_prop in H. destruct H; [apply MAltL | apply MAltR]; auto.
  - apply andb_prop in H. destruct H.
    change EmptyString with (EmptyString ++ EmptyString). constructor; auto.
  - constructor.
Qed.

Lemma nullable_complete (r : regex) (s : string) :
  Matches r s -> s = EmptyString -> nullable r = true.
Proof.
  induction 1; intros E; cbn; try reflexivity; try discriminate.
  - rewrite IHMatches by assumption. reflexivity.
  - rewrite IHMatches by assumption. apply orb_true_r.
  - apply append_empty in E. destruct E.
    rewrite IHMatches1, IHMatches2 by assumption. reflexivity.
Qed.

Lemma mkAlt_iff (r1 r2 : regex) (s : string) :
  Matches (mkAlt r1 r2) s <-> Matches (Alt r1 r2) s.
Proof.
  split.
  - destruct r1, r2; cbn; intros H; try exact H;
      solve [apply MAltL; exact H | apply MAltR; exact H].
  - intros H. inversion H; subst.
    + destruct r1, r2; cbn; try assumption; try (apply MAltL; assumption);
        match goal with Hv : Matches Void _ |- _ => inversion Hv end.
    + destruct r1, r2; cbn; try assumption; try (apply MAltR; assumption);
        match goal with Hv : Matches Void _ |- _ => inversion Hv end.
Qed.

Lemma mkSeq_iff (r1 r2 : regex) (s : string) :
  Matches (mkSeq r1 r2) s <-> Matches (Seq r1 r2) s.
Proof.
  split.
  - destruct r1, r2; cbn; intros H; try exact H;
      try (inversion H; fail);
      try (change s with (EmptyString ++ s); constructor; [constructor | exact H]).
  - intros H. inversion H as [| | | |? ? s1 s2 H1 H2| |]; subst.
    destruct r1, r2; cbn;
      try (inversion H1; fail); try (inversion H2; fail);
      try (constructor; assumption);
      inversion H1; subst; cbn; assumption.
Qed.

Lemma deriv_sound (c : ascii) (r : regex) :
  forall s, Matches (deriv c r) s -> Matches r (String c s).
Proof.
  induction r; cbn; intros s H.
  - inversion H.
  - inversion H.
  - destruct (in_range lo hi c) eqn:E; inversion H; subst. constructor. exact E.
  - apply mkAlt_iff in H. inversion H; subst; [apply MAltL | apply MAltR]; auto.
  - assert (Hseq : forall s, Matches (mkSeq (deriv c r1) r2) s ->
                             Matches (Seq r1 r2) (String c s)).
    { intros s0 H0. apply mkSeq_iff in H0.
      inversion H0 as [| | | |? ? s1 s2 H1 H2| |]; subst.
      change (String c (s1 ++ s2)) with (String c s1 ++ s2).
      constructor; auto. }
    destruct (nullable r1) eqn:N.
    + apply mkAlt_iff in H. inversion H; subst.
      * apply Hseq. assumption.
      * change (String c s) with (EmptyString ++ String c s).
        constructor; [apply nullable_sound; exact N | auto].
    + apply Hseq. assumption.
  - apply mkSeq_iff in H.
    inversion H as [| | | |? ? s1 s2 H1 H2| |]; subst.
    change (String c (s1 ++ s2)) with (String c s1 ++ s2).
    constructor; auto.
Qed.

Lemma deriv_complete (r : regex) (s' : string) :
  Matches r s' -> forall c s, s' = String c s -> Matches (deriv c r) s.
Proof.
  induction 1; intros c0 s0 E; cbn.
  - discriminate.
  - injection E as -> <-. rewrite H. constructor.
  - apply mkAlt_iff. apply MAltL. eauto.
  - apply mkAlt_iff. apply MAltR. eauto.
  - destruct s1 as [|a s1].
    + cbn in E. rewrite (nullable_complete r1 _ H eq_refl).
      apply mkAlt_iff. apply MAltR. eauto.
    + cbn in E. injection E as -> <-.
      assert (Hs : Matches (mkSeq (deriv c0 r1) r2) (s1 ++ s2)).
      { apply mkSeq_iff. constructor; eauto. }
      destruct (nullable r1); [apply mkAlt_iff; apply MAltL|]; exact Hs.
  - discriminate.
  - destruct s1 as [|a s1].
    + cbn in E. exact (IHMatches2 c0 s0 E).
    + cbn in E. injection E as -> <-.
      apply mkSeq_iff. constructor; eauto.
Qed.

(** [/^r$/.test(s)] holds exactly when [s] is in the denotation of [r]. *)
Lemma matches_iff (s : string) : forall r, matches r s = true <-> Matches r s.
Proof.
  induction s as [|c s IH]; intros r; cbn.
  - split; [apply nullable_sound | intros H; exact (nullable_complete r _ H eq_refl)].
  - rewrite IH. split; [apply deriv_sound | intros H; exact (deriv_complete r _ H c s eq_refl)].
Qed.

Lemma in_range_any (c : ascii) : in_range "000" "255" c = true.
Proof.
  unfold in_range. cbn [nat_of_ascii].
  pose proof (nat_ascii_bounded c) as Hb.
  change (nat_of_ascii "000") with 0%nat. change (nat_of_ascii "255") with 255%nat.
  apply andb_true_intro. split; apply Nat.leb_le; lia.
Qed.

Lemma star_any (s : string) : Matches (Star Any) s.
Proof.
  induction s as [|c s IH]; [constructor|].
  change (String c s) with (String c EmptyString ++ s).
  constructor; [constructor; apply in_range_any | exact IH].
Qed.

(** [/r/.test(s)] holds exactly when some substring of [s] is in the
    denotation of [r]. *)
Lemma test_iff (r : regex) (s : string) :
  test r s = true <->
  exists pre mid post, s = pre ++ mid ++ post /\ Matches r mid.
Proof.
  unfold test. rewrite matches_iff. split.
  - intros H. inversion H as [| | | |? ? pre rest Hpre Hrest| |]; subst.
    inversion Hrest as [| | | |? ? mid post Hmid Hpost| |]; subst.
    exists pre, mid, post. split; [reflexivity | assumption].
  - intros (pre & mid & post & -> & Hmid).
    constructor; [apply star_any|]. constructor; [exact Hmid | apply star_any].
Qed.

End RegexMatcher.

(** ** Numbers: literals and rounding *)

(** The literal [0.35] is the double [0x1.6666666666666p-2], [0.25] is
    exact, and integers are themselves. *)
Example number_literals :
  JS.dec 35 2 = S754_finite false 6305039478318694 (-54) /\
  JS.dec 15 2 = S754_finite false 5404319552844595 (-55) /\
  JS.dec 25 2 = S754_finite false 4503599627370496 (-54) /\
  JS.int 100 = S754_finite false 7036874417766400 (-46) /\
  JS.int 0 = S754_zero false.
Proof. vm_compute. repeat split. Qed.

(** [Math.round] rounds to the nearest integer, halves upwards, and keeps
    the sign of a zero result. *)
Example Math_round_examples :
  JS.Math_round (JS.dec 25 1) = JS.int 3 /\
  JS.Math_round (JS.dec (-25) 1) = JS.int (-2) /\
  JS.Math_round (JS.dec (-26) 1) = JS.int (-3) /\
  JS.Math_round (JS.dec 9625 2) = JS.int 96 /\
  JS.Math_round (JS.dec 4 1) = S754_zero false /\
  JS.Math_round (JS.dec (-4) 1) = S754_zero true /\
  JS.Math_round (JS.int 7) = JS.int 7 /\
  JS.Math_round JS.NaN = JS.NaN.
Proof. vm_compute. repeat split. Qed.

(** ** Comparison of numbers *)

Section NumberOrder.

Lemma poscmp_antisym (p q : positive) :
  Pos.compare_cont Eq q p = CompOpp (Pos.compare_cont Eq p q).
Proof. exact (Pos.compare_antisym p q). Qed.

Lemma SFcompare_antisym (x y : JS.number) :
  SFcompare y x = option_map CompOpp (SFcompare x y).
Proof.
  destruct x as [sx|sx| |sx mx ex], y as [sy|sy| |sy my ey]; simpl;
    try reflexivity;
    try (destruct sx; reflexivity);
    try (destruct sy; reflexivity);
    try (destruct sx, sy; reflexivity).
  destruct sx, sy; simpl; try reflexivity;
    rewrite (Z.compare_antisym ex ey);
    destruct (ex ?= ey); simpl; try reflexivity;
    rewrite poscmp_antisym; try reflexivity;
    now rewrite CompOpp_involutive.
Qed.

(** [x < y] excludes [x >= y]. *)
Lemma ltb_not_geb (x y : JS.number) : JS.ltb x y = true -> JS.geb x y = false.
Proof.
  unfold JS.ltb, JS.geb, SFltb, SFleb. rewrite (SFcompare_antisym x y).
  destruct (SFcompare x y) as [[ | | ]|]; simpl; congruence.
Qed.

(** Without NaN, [x >= y] fails exactly when [x < y]. *)
Lemma not_geb_ltb (x y : JS.number) :
  x <> JS.NaN -> y <> JS.NaN -> JS.geb x y = false -> JS.ltb x y = true.
Proof.
  unfold JS.ltb, JS.geb, SFltb, SFleb, JS.NaN. intros Hx Hy.
  rewrite (SFcompare_antisym x y).
  assert (Hc : exists c, SFcompare x y = Some c)
    by (destruct x, y; simpl; try congruence; eauto).
  destruct Hc as [c Hc]. rewrite Hc. destruct c; simpl; congruence.
Qed.

Lemma poscmp_trans_le (p q r : positive) :
  Pos.compare_cont Eq p q <> Gt -> Pos.compare_cont Eq q r <> Gt ->
  Pos.compare_cont Eq p r <> Gt.
Proof.
  change (Pos.compare_cont Eq p q) with (Pos.compare p q).
  change (Pos.compare_cont Eq q r) with (Pos.compare q r).
  change (Pos.compare_cont Eq p r) with (Pos.compare p r).
  intros H1 H2. exact (Pos.le_trans p q r H1 H2).
Qed.

Lemma poscmp_trans_ge (p q r : positive) :
  Pos.compare_cont Eq p q <> Lt -> Pos.compare_cont Eq q r <> Lt ->
  Pos.compare_cont Eq p r <> Lt.
Proof.
  change (Pos.compare_cont Eq p q) with (Pos.compare p q).
  change (Pos.compare_cont Eq q r) with (Pos.compare q r).
  change (Pos.compare_cont Eq p r) with (Pos.compare p r).
  intros H1 H2. apply Pos.ge_le_iff. apply Pos.ge_le_iff in H1, H2.
  exact (Pos.le_trans r q p H2 H1).
Qed.

(** [<=] on numbers is transitive. *)
Lemma leb_trans (x y z : JS.number) :
  JS.leb x y = true -> JS.leb y z = true -> JS.leb x z = true.
Proof.
  unfold JS.leb, SFleb.
  destruct x as [sx|sx| |sx mx ex], y as [sy|sy| |sy my ey], z as [sz|sz| |sz mz ez];
    simpl; try congruence;
    try (destruct sx; simpl; congruence);
    try (destruct sy; simpl; congruence);
    try (destruct sz; simpl; congruence);
    try (destruct sx, sy; simpl; congruence);
    try (destruct sx, sz; simpl; congruence);
    try (destruct sy, sz; simpl; congruence);
    try (destruct sx, sy, sz; simpl; congruence).
  destruct sx, sy, sz; simpl; try congruence.
  - (* all negative *)
    destruct (Z.compare_spec ex ey), (Z.compare_spec ey ez), (Z.compare_spec ex ez);
      try congruence; try lia; subst.
    intros Hxy Hyz.
    assert (G1 : Pos.compare_cont Eq mx my <> Lt)
      by (destruct (Pos.compare_cont Eq mx my); simpl in *; congruence).
    assert (G2 : Pos.compare_cont Eq my mz <> Lt)
      by (destruct (Pos.compare_cont Eq my mz); simpl in *; congruence).
    pose proof (poscmp_trans_ge _ _ _ G1 G2) as G.
    destruct (Pos.compare_cont Eq mx mz); simpl; congruence.
  - (* all positive *)
    destruct (Z.compare_spec ex ey), (Z.compare_spec ey ez), (Z.compare_spec ex ez);
      try congruence; try lia; subst.
    intros Hxy Hyz.
    assert (G1 : Pos.compare_cont Eq mx my <> Gt)
      by (destruct (Pos.compare_cont Eq mx my); simpl in *; congruence).
    assert (G2 : Pos.compare_cont Eq my mz <> Gt)
      by (destruct (Pos.compare_cont Eq my mz); simpl in *; congruence).
    pose proof (poscmp_trans_le _ _ _ G1 G2) as G.
    destruct (Pos.compare_cont Eq mx mz); simpl; congruence.
Qed.

(** A threshold that [s1] reaches is reached by every [s2 >= s1]. *)
Lemma geb_mono (c s1 s2 : JS.number) :
  JS.leb s1 s2 = true -> JS.geb s1 c = true -> JS.geb s2 c = true.
Proof. unfold JS.geb. intros H12 Hc. exact (leb_trans c s1 s2 Hc H12). Qed.

End NumberOrder.

(** ** Grades *)

Section Grades.
Import AnalysisController.

(** The thresholds are nested: a score that reaches one reaches the
    lower ones. *)
Lemma geb_threshold_down (s : JS.number) (hi lo : Z) :
  JS.leb (JS.int lo) (JS.int hi) = true ->
  JS.geb s (JS.int hi) = true -> JS.geb s (JS.int lo) = true.
Proof. unfold JS.geb. intros Hlo Hhi. exact (leb_trans _ _ _ Hlo Hhi). Qed.

(** The grade of a score, read off the thresholds. *)
Lemma grade_thresholds (s : JS.number) :
  (JS.geb s (JS.int 90) = true -> _calculateGrade s = GradeAplus) /\
  (JS.geb s (JS.int 80) = true -> JS.ltb s (JS.int 90) = true ->
   _calculateGrade s = GradeA) /\
  (JS.geb s (JS.int 70) = true -> JS.ltb s (JS.int 80) = true ->
   _calculateGrade s = GradeB) /\
  (JS.geb s (JS.int 60) = true -> JS.ltb s (JS.int 70) = true ->
   _calculateGrade s = GradeC) /\
  (JS.geb s (JS.int 50) = true -> JS.ltb s (JS.int 60) = true ->
   _calculateGrade s = GradeD) /\
  (JS.ltb s (JS.int 50) = true -> _calculateGrade s = GradeF).
Proof.
  pose proof (geb_threshold_down s 90 80 eq_refl) as D98.
  pose proof (geb_threshold_down s 80 70 eq_refl) as D87.
  pose proof (geb_threshold_down s 70 60 eq_refl) as D76.
  pose proof (geb_threshold_down s 60 50 eq_refl) as D65.
  pose proof (ltb_not_geb s (JS.int 90)) as L9.
  pose proof (ltb_not_geb s (JS.int 80)) as L8.
  pose proof (ltb_not_geb s (JS.int 70)) as L7.
  pose proof (ltb_not_geb s (JS.int 60)) as L6.
  pose proof (ltb_not_geb s (JS.int 50)) as L5.
  unfold _calculateGrade.
  destruct (JS.geb s (JS.int 90)); destruct (JS.geb s (JS.int 80));
    destruct (JS.geb s (JS.int 70)); destruct (JS.geb s (JS.int 60));
    destruct (JS.geb s (JS.int 50));
    repeat split; intros;
    try reflexivity; try discriminate;
    repeat match goal with
           | H : ?a = ?a -> _ |- _ => specialize (H eq_refl)
           | H : JS.ltb _ _ = true, L : JS.ltb _ _ = true -> _ |- _ =>
               specialize (L H)
           end;
    try discriminate.
Qed.

(** The grade does not decrease when the score grows. *)
Lemma grade_monotone (s1 s2 : JS.number) :
  JS.leb s1 s2 = true ->
  (grade_rank (_calculateGrade s1) <= grade_rank (_calculateGrade s2))%nat.
Proof.
  intros H12.
  pose proof (geb_mono (JS.int 90) s1 s2 H12) as M9.
  pose proof (geb_mono (JS.int 80) s1 s2 H12) as M8.
  pose proof (geb_mono (JS.int 70) s1 s2 H12) as M7.
  pose proof (geb_mono (JS.int 60) s1 s2 H12) as M6.
  pose proof (geb_mono (JS.int 50) s1 s2 H12) as M5.
  unfold _calculateGrade.
  destruct (JS.geb s1 (JS.int 90)); [rewrite (M9 eq_refl); simpl; lia|].
  destruct (JS.geb s1 (JS.int 80));
    [rewrite (M8 eq_refl); destruct (JS.geb s2 (JS.int 90)); simpl; lia|].
  destruct (JS.geb s1 (JS.int 70));
    [rewrite (M7 eq_refl); destruct (JS.geb s2 (JS.int 90));
     destruct (JS.geb s2 (JS.int 80)); simpl; lia|].
  destruct (JS.geb s1 (JS.int 60));
    [rewrite (M6 eq_refl); destruct (JS.geb s2 (JS.int 90));
     destruct (JS.geb s2 (JS.int 80)); destruct (JS.geb s2 (JS.int 70)); simpl; lia|].
  destruct (JS.geb s1 (JS.int 50));
    [rewrite (M5 eq_refl); destruct (JS.geb s2 (JS.int 90));
     destruct (JS.geb s2 (JS.int 80)); destruct (JS.geb s2 (JS.int 70));
     destruct (JS.geb s2 (JS.int 60)); simpl; lia|].
  simpl. lia.
Qed.

(** On the integer scores 0..100 the grade is the one the thresholds give
    to the integer. *)
Lemma grade_table :
  forallb (fun n => grade_eqb (_calculateGrade (JS.int n)) (grade_of_Z n))
          (map Z.of_nat (seq 0 101)) = true.
Proof. vm_compute. reflexivity. Qed.

Lemma grade_of_integer_score (n : Z) :
  0 <= n <= 100 -> _calculateGrade (JS.int n) = grade_of_Z n.
Proof.
  intros Hn.
  assert (Hin : In n (map Z.of_nat (seq 0 101))).
  { rewrite <- (Z2Nat.id n) by lia. apply in_map. apply in_seq. lia. }
  pose proof (proj1 (forallb_forall _ _) grade_table n Hin) as H.
  unfold grade_eqb in H. apply Nat.eqb_eq in H.
  destruct (_calculateGrade (JS.int n)), (grade_of_Z n); cbn in H;
    try reflexivity; discriminate.
Qed.

End Grades.

(** C3.  The aggregator's score-to-grade mapping gives A+ to every score
    >= 90, A to every score >= 80 (below 90), B to >= 70, C to >= 60, D to
    >= 50 and F to every score below 50; and for any two scores
    [s1 <= s2] the grade of [s1] is at most the grade of [s2] in the order
    F < D < C < B < A < A+.  Scores range over all JavaScript numbers. *)
Theorem C3_grade_thresholds_and_monotone (s1 s2 : JS.number) :
  let grade := AnalysisController._calculateGrade in
  (JS.geb s1 (JS.int 90) = true -> grade s1 = GradeAplus) /\
  (JS.geb s1 (JS.int 80) = true -> JS.ltb s1 (JS.int 90) = true -> grade s1 = GradeA) /\
  (JS.geb s1 (JS.int 70) = true -> JS.ltb s1 (JS.int 80) = true -> grade s1 = GradeB) /\
  (JS.geb s1 (JS.int 60) = true -> JS.ltb s1 (JS.int 70) = true -> grade s1 = GradeC) /\
  (JS.geb s1 (JS.int 50) = true -> JS.ltb s1 (JS.int 60) = true -> grade s1 = GradeD) /\
  (JS.ltb s1 (JS.int 50) = true -> grade s1 = GradeF) /\
  (JS.leb s1 s2 = true -> (grade_rank (grade s1) <= grade_rank (grade s2))%nat).
Proof.
  intros grade. unfold grade, AnalysisController._calculateGrade.
  destruct (grade_thresholds s1) as (T9 & T8 & T7 & T6 & T5 & T0).
  repeat split; try assumption.
  apply grade_monotone.
Qed.

(** C3 at the scores 85, 55 and 95: 85 is graded A, and 55 <= 95 are
    graded in that order. *)
Lemma C3_witness :
  AnalysisController._calculateGrade (JS.int 85) = GradeA /\
  (grade_rank (AnalysisController._calculateGrade (JS.int 55))
   <= grade_rank (AnalysisController._calculateGrade (JS.int 95)))%nat.
Proof.
  split.
  - apply (C3_grade_thresholds_and_monotone (JS.int 85) (JS.int 85)); reflexivity.
  - apply (C3_grade_thresholds_and_monotone (JS.int 55) (JS.int 95)); reflexivity.
Defined.

(** C10.  The three score-to-grade functions (aggregation controller,
    cookie analyzer, header analyzer) return the same letter grade for
    every numeric score. *)
Theorem C10_grade_functions_agree (score : JS.number) :
  AnalysisController._calculateGrade score = CookieAnalyzer._calculateGrade score /\
  CookieAnalyzer._calculateGrade score = HeaderAnalyzer._calculateGrade score.
Proof.
  unfold AnalysisController._calculateGrade, CookieAnalyzer._calculateGrade,
    HeaderAnalyzer._calculateGrade.
  split; reflexivity.
Qed.


(** ** The aggregator *)

Section Aggregator.
Import AnalysisController.

(** The findings of a finished analysis are those of the four categories,
    in the order ssl, headers, cookies, html. *)
Lemma finish_vulnerabilities (https : bool) (s h c t : CategoryResult) :
  vulnerabilities (finish https s h c t) =
  (or_empty (c_vulnerabilities s) ++ or_empty (c_vulnerabilities h) ++
   or_empty (c_vulnerabilities c) ++ or_empty (c_vulnerabilities t))%list.
Proof. reflexivity. Qed.

(** The loop over the weights adds the four weighted scores in order. *)
Lemma overallScore_unfold (a : Analysis) :
  _calculateOverallScore a =
  JS.clamp (JS.Math_round
           (penalised_sum (JS.or_else (c_score (ssl a)) (JS.int 0))
                          (JS.or_else (c_score (headers a)) (JS.int 0))
                          (JS.or_else (c_score (cookies a)) (JS.int 0))
                          (JS.or_else (c_score (html a)) (JS.int 0))
                          (criticalCount (vulnerabilities a))
                          (isHttps a))).
Proof.
  unfold _calculateOverallScore, penalised_sum, JS.clamp, criticalCount, weights, scores.
  cbn [fold_left get String.eqb Ascii.eqb Bool.eqb andb].
  destruct (isHttps a); reflexivity.
Qed.

End Aggregator.

(** C1 as stated fails: an HTTPS site with perfect SSL and header scores,
    no cookies, and a page that only lacks a charset declaration (HTML
    score 75).  The penalised sum is 25 + 35 + 25 + 11.25 = 96.25, which
    is what the statement without rounding gives, and the program
    returns 96. *)
Lemma C1_counterexample :
  let P := CookieAnalyzer.mkPlatform (fun _ => []) (fun _ => true) (JS.int 0) in
  let cookies :=
    AnalysisController.of_cookies
      (CookieAnalyzer.analyzeCookies P CookieAnalyzer.Missing "https://example.com") in
  let html :=
    AnalysisController.of_html
      (AnalysisController._analyzeHTML AnalysisController.bare_page "https://example.com") in
  let a := AnalysisController.finish true
             (AnalysisController.score_only 100) (AnalysisController.score_only 100)
             cookies html in
  AnalysisController.c_score cookies = JS.int 100 /\
  AnalysisController.c_score html = JS.int 75 /\
  AnalysisController.criticalCount (AnalysisController.vulnerabilities a) = 0%nat /\
  AnalysisController.score a = JS.int 96 /\
  AnalysisController.stated_overallScore
    (JS.int 100) (JS.int 100) (JS.int 100) (JS.int 75) 0 true = JS.dec 9625 2 /\
  JS.eqb (AnalysisController.score a)
         (AnalysisController.stated_overallScore
            (JS.int 100) (JS.int 100) (JS.int 100) (JS.int 75) 0 true) = false.
Proof. vm_compute. repeat split. Qed.

(** C1 (amended).  For every finished analysis, with [s_x] the score of
    category [x] (a score of 0 or NaN counting as 0), the overall score is
    the double-precision value of
    [0.25*s_ssl + 0.35*s_headers + 0.25*s_cookies + 0.15*s_html
     - min(30, 10 * number of critical findings of the four categories)
     - (15 if the URL is not HTTPS)],
    rounded to the nearest integer by [Math.round] and then clamped into
    [0,100]. *)
Theorem C1_overall_score_rounded (https : bool)
        (ssl headers cookies html : AnalysisController.CategoryResult) :
  let s c := JS.or_else (AnalysisController.c_score c) (JS.int 0) in
  let findings c := AnalysisController.or_empty (AnalysisController.c_vulnerabilities c) in
  let critical :=
    AnalysisController.criticalCount
      (findings ssl ++ findings headers ++ findings cookies ++ findings html)%list in
  AnalysisController.score (AnalysisController.finish https ssl headers cookies html) =
  JS.clamp
    (JS.Math_round
       (AnalysisController.penalised_sum (s ssl) (s headers) (s cookies) (s html)
                                         critical https)).
Proof.
  intros s findings critical.
  unfold AnalysisController.finish. cbn [AnalysisController.score].
  rewrite overallScore_unfold. reflexivity.
Qed.

(** The sum is a double-precision one: for the scores 0, 1, 0, 41 it is
    6.4999999999999991, not 6.5, and the overall score is 6. *)
Example overall_score_in_double_precision :
  AnalysisController.score
    (AnalysisController.finish true
       (AnalysisController.score_only 0) (AnalysisController.score_only 1)
       (AnalysisController.score_only 0) (AnalysisController.score_only 41))
  = JS.int 6.
Proof. vm_compute. reflexivity. Qed.

(** ** Score ranges *)

Section Ranges.
Import AnalysisController.

Lemma SFltb_leb (x y : JS.number) : SFltb x y = true -> SFleb x y = true.
Proof. unfold SFltb, SFleb. destruct (SFcompare x y) as [[ | | ]|]; congruence. Qed.

(** Clamping yields NaN for NaN and a number of [0,100] otherwise. *)
Lemma clamp_range (x : JS.number) :
  x <> JS.NaN ->
  JS.leb (JS.int 0) (JS.clamp x) = true /\ JS.leb (JS.clamp x) (JS.int 100) = true.
Proof.
  intros Hx. unfold JS.clamp, JS.leb.
  change (JS.int 0) with (S754_zero false).
  set (hundred := JS.int 100). vm_compute in hundred.
  destruct x as [sx|sx| |sx mx ex]; try (exfalso; apply Hx; reflexivity).
  - split; reflexivity.
  - destruct sx; split; reflexivity.
  - unfold JS.Math_min; subst hundred.
    destruct (SFltb (S754_finite sx mx ex) (S754_finite false 7036874417766400 (-46)))
      eqn:Hlt.
    + unfold JS.Math_max.
      destruct (SFltb (S754_zero false) (S754_finite sx mx ex)) eqn:Hpos.
      * split; [exact (SFltb_leb _ _ Hpos) | exact (SFltb_leb _ _ Hlt)].
      * split; reflexivity.
    + split; reflexivity.
Qed.

(** A clamped value is NaN or in range, by cases on the value. *)
Ltac clamped r :=
  destruct r; [ right; apply clamp_range; discriminate
              | right; apply clamp_range; discriminate
              | left; reflexivity
              | right; apply clamp_range; discriminate ].

(** The overall score is NaN or a number of [0,100]. *)
Lemma overallScore_range (a : Analysis) :
  _calculateOverallScore a = JS.NaN \/
  (JS.leb (JS.int 0) (_calculateOverallScore a) = true /\
   JS.leb (_calculateOverallScore a) (JS.int 100) = true).
Proof.
  rewrite overallScore_unfold.
  set (r := JS.Math_round _). clamped r.
Qed.

(** So is the cookie score. *)
Lemma cookieScore_range (len : nat) (summary : CookieAnalyzer.Summary)
      (vs : list Vulnerability) :
  let score := CookieAnalyzer._calculateCookieScore true len summary vs in
  score = JS.NaN \/
  (JS.leb (JS.int 0) score = true /\ JS.leb score (JS.int 100) = true).
Proof.
  unfold CookieAnalyzer._calculateCookieScore. cbn [negb].
  set (r := JS.Math_round _).
  change (JS.Math_max (JS.int 0) (JS.Math_min (JS.int 100) r)) with (JS.clamp r).
  clamped r.
Qed.

(** It is NaN when Set-Cookie headers are present but the parser finds no
    cookie in them (the ratios are then 0/0). *)
Lemma cookieScore_nan_without_cookies
      (P : CookieAnalyzer.Platform) (cookieHeaders : CookieAnalyzer.CookieHeaders)
      (url : string) :
  CookieAnalyzer.no_headers cookieHeaders = false ->
  CookieAnalyzer.setCookie_parse P cookieHeaders = [] ->
  CookieAnalyzer.score (CookieAnalyzer.analyzeCookies P cookieHeaders url) = JS.NaN.
Proof.
  intros Hhead Hparse. unfold CookieAnalyzer.analyzeCookies.
  rewrite Hhead, Hparse. reflexivity.
Qed.

End Ranges.

(** C2.  At the page with two password forms submitted with GET over plain
    HTTP and no charset declaration, the HTML analyzer's score is
    80 - 2*(20 + 25) - 5 = -15: it is below 0, and it is the score that the
    aggregator receives for the html category. *)
Theorem C2_html_score_below_zero :
  let a := AnalysisController._analyzeHTML
             AnalysisController.two_login_forms "http://example.com" in
  AnalysisController.h_score a = JS.int (-15) /\
  JS.ltb (AnalysisController.h_score a) (JS.int 0) = true /\
  JS.geb (AnalysisController.c_score (AnalysisController.of_html a)) (JS.int 0) = false.
Proof. vm_compute. repeat split. Qed.

(** ** The cookie analyzer *)

Section Cookies.
Import CookieAnalyzer.
Local Open Scope string_scope.

Lemma in_push_if {A} (c : bool) (x y : A) (l : list A) :
  In x l -> In x (push_if c y l).
Proof.
  unfold push_if. destruct c; [|trivial]. intros H. apply in_or_app. now left.
Qed.

(** A sensitive cookie without Secure, HttpOnly and SameSite gets the three
    findings, whatever else is found on it. *)
Lemma single_cookie_flags (P : Platform) (cookie : Cookie) (url : string) :
  new_URL_ok P url = true ->
  _isSensitiveCookie (name cookie) = true ->
  secure cookie = false -> httpOnly cookie = false -> sameSite_or_null cookie = None ->
  exists a, _analyzeSingleCookie P cookie url = Some a /\
            incl flag_findings (a_vulnerabilities a).
Proof.
  intros Hurl Hsens Hsec Hhttp Hsame.
  unfold _analyzeSingleCookie.
  rewrite Hurl, Hsens, Hsec, Hhttp, Hsame.
  cbn [negb andb].
  eexists. split; [reflexivity|].
  cbn [a_vulnerabilities].
  assert (Hbase : incl flag_findings
            (List.app (push_if true (vuln "missing_httponly_flag" High)
                        (push_if true (vuln "missing_secure_flag" Critical) []))
                      [vuln "missing_samesite" Medium])).
  { intros v Hv. exact Hv. }
  intros v Hv. apply Hbase in Hv.
  repeat apply in_push_if.
  destruct (has_lifetime cookie); [apply in_push_if|]; exact Hv.
Qed.

(** The loop fails only when the URL does not parse, keeps what was
    collected, and collects the findings of every cookie. *)
Lemma analyzeEach_collects (P : Platform) (url : string) (cs : list Cookie) :
  new_URL_ok P url = true ->
  forall st, exists st',
    analyzeEach P url cs st = Some st' /\
    incl (l_vulnerabilities st) (l_vulnerabilities st') /\
    forall c, In c cs ->
      exists a, _analyzeSingleCookie P c url = Some a /\
                incl (a_vulnerabilities a) (l_vulnerabilities st').
Proof.
  intros Hurl. induction cs as [|c cs IH]; intros st.
  - exists st. repeat split; [apply incl_refl | intros c []].
  - cbn [analyzeEach].
    destruct (_analyzeSingleCookie P c url) as [a|] eqn:Ha.
    + destruct (IH {| l_cookies := List.app (l_cookies st) [a];
                      l_summary := updateSummary (l_summary st) a;
                      l_vulnerabilities :=
                        List.app (l_vulnerabilities st) (a_vulnerabilities a) |})
        as (st' & Hrun & Hkeep & Hall).
      cbn [l_vulnerabilities] in Hkeep.
      exists st'. repeat split; [exact Hrun | | ].
      * intros v Hv. apply Hkeep. apply in_or_app. now left.
      * intros c' [<-|Hin].
        -- exists a. split; [exact Ha|].
           intros v Hv. apply Hkeep. apply in_or_app. now right.
        -- exact (Hall c' Hin).
    + exfalso. unfold _analyzeSingleCookie in Ha. rewrite Hurl in Ha.
      cbn [negb] in Ha. discriminate.
Qed.

(** A name that contains one of the configured dangerous names, in any
    case, is sensitive: [sessionid], [AuthToken], [csrf_secret], ... *)
Lemma dangerous_name_sensitive (name dangerous : string) :
  In dangerous Security.COOKIE_SECURITY_dangerousNames ->
  Str.includes (Str.toLowerCase name) dangerous = true ->
  _isSensitiveCookie name = true.
Proof.
  intros Hin Hinc. unfold _isSensitiveCookie.
  apply orb_true_iff. right. apply existsb_exists.
  exists dangerous. split; assumption.
Qed.

Lemma overall_patterns_keep (st : LoopState) :
  incl (l_vulnerabilities st) (_analyzeOverallCookiePatterns st).
Proof.
  intros v Hv. unfold _analyzeOverallCookiePatterns.
  repeat apply in_push_if. exact Hv.
Qed.

End Cookies.

(** C4.  With no Set-Cookie entries -- a missing argument, the empty string
    or the empty list -- the cookie analyzer returns score 100 and
    hasCookies = false, and the grade A; the grade of the score 100 by the
    analyzer's own mapping is A+. *)
Theorem C4_no_cookies_result (P : CookieAnalyzer.Platform) (url : string) :
  let empty_inputs :=
    [CookieAnalyzer.Missing; CookieAnalyzer.Single EmptyString; CookieAnalyzer.Many []] in
  Forall (fun cookieHeaders =>
            let a := CookieAnalyzer.analyzeCookies P cookieHeaders url in
            CookieAnalyzer.score a = JS.int 100 /\
            CookieAnalyzer.hasCookies a = false /\
            CookieAnalyzer.grade a = GradeA /\
            CookieAnalyzer._calculateGrade (CookieAnalyzer.score a) = GradeAplus)
         empty_inputs.
Proof.
  cbv zeta. repeat constructor.
Qed.

(** C9.  When the parsed cookies contain a cookie whose name matches the
    sensitivity heuristic and which has none of Secure, HttpOnly and
    SameSite, the analysis of the cookie analyzer lists a critical
    missing-Secure finding, a high missing-HttpOnly finding and a medium
    missing-SameSite finding. *)
Theorem C9_sensitive_cookie_findings
        (P : CookieAnalyzer.Platform) (cookieHeaders : CookieAnalyzer.CookieHeaders)
        (url : string) (cookie : CookieAnalyzer.Cookie) :
  CookieAnalyzer.no_headers cookieHeaders = false ->
  In cookie (CookieAnalyzer.setCookie_parse P cookieHeaders) ->
  CookieAnalyzer.new_URL_ok P url = true ->
  CookieAnalyzer._isSensitiveCookie (CookieAnalyzer.name cookie) = true ->
  CookieAnalyzer.secure cookie = false ->
  CookieAnalyzer.httpOnly cookie = false ->
  CookieAnalyzer.sameSite_or_null cookie = None ->
  exists findings,
    CookieAnalyzer.vulnerabilities (CookieAnalyzer.analyzeCookies P cookieHeaders url)
    = Some findings /\
    In (mkVulnerability "missing_secure_flag" Critical) findings /\
    In (mkVulnerability "missing_httponly_flag" High) findings /\
    In (mkVulnerability "missing_samesite" Medium) findings.
Proof.
  intros Hhead Hin Hurl Hsens Hsec Hhttp Hsame.
  unfold CookieAnalyzer.analyzeCookies. rewrite Hhead.
  destruct (analyzeEach_collects P url (CookieAnalyzer.setCookie_parse P cookieHeaders)
              Hurl (CookieAnalyzer.mkLoopState [] CookieAnalyzer.emptySummary []))
    as (st & Hrun & _ & Hall).
  rewrite Hrun. cbn [CookieAnalyzer.vulnerabilities].
  eexists. split; [reflexivity|].
  destruct (Hall cookie Hin) as (a & Ha & Hsub).
  destruct (single_cookie_flags P cookie url Hurl Hsens Hsec Hhttp Hsame)
    as (a' & Ha' & Hflags).
  rewrite Ha in Ha'. injection Ha' as <-.
  assert (Hall3 : incl CookieAnalyzer.flag_findings
                       (CookieAnalyzer._analyzeOverallCookiePatterns st)).
  { intros v Hv. apply overall_patterns_keep. apply Hsub. apply Hflags. exact Hv. }
  repeat split; apply Hall3; unfold CookieAnalyzer.flag_findings; simpl; auto.
Qed.

(** C9 at the cookie [sessionid=abc123], alone in the response. *)
Lemma C9_witness :
  let sessionid :=
    CookieAnalyzer.mkCookie "sessionid" "abc123" None None false false None None None in
  let P := CookieAnalyzer.mkPlatform (fun _ => [sessionid]) (fun _ => true) (JS.int 0) in
  exists findings,
    CookieAnalyzer.vulnerabilities
      (CookieAnalyzer.analyzeCookies P (CookieAnalyzer.Many ["sessionid=abc123"%string])
                                     "https://example.com")
    = Some findings /\
    In (mkVulnerability "missing_secure_flag" Critical) findings /\
    In (mkVulnerability "missing_httponly_flag" High) findings /\
    In (mkVulnerability "missing_samesite" Medium) findings.
Proof.
  intros sessionid P.
  apply (C9_sensitive_cookie_findings P (CookieAnalyzer.Many ["sessionid=abc123"%string])
           "https://example.com" sessionid).
  - reflexivity.
  - simpl. left. reflexivity.
  - reflexivity.
  - vm_compute. reflexivity.
  - reflexivity.
  - reflexivity.
  - reflexivity.
Defined.

(** ** The URL validator *)

Section Validator.
Import URLValidator.
Local Open Scope string_scope.

(** A candidate whose host is a private IPv4 literal is rejected with the
    private-address error, whatever the resolver answers. *)
Lemma private_literal_rejected (P : Platform) (testUrl : string) (u : URL) :
  new_URL P testUrl = Some u ->
  _isPrivateIP (hostname u) = true ->
  exists errors, _validateSingleUrl P testUrl = SingleInvalid errors /\
                 In private_ip_error errors.
Proof.
  intros Hparse Hpriv. unfold _validateSingleUrl. rewrite Hparse, Hpriv.
  set (e0 := push_if _ _ []). set (e1 := push_if _ _ e0). set (e2 := push_if _ _ e1).
  assert (Hin : In private_ip_error (push_if true "IPs privados não são permitidos" e2)).
  { unfold push_if. apply in_or_app. right. left. reflexivity. }
  destruct (resolveDNS P (hostname u)) as [msg|].
  - assert (Hin' : In private_ip_error
                      (List.app (push_if true "IPs privados não são permitidos" e2)
                                ["DNS não resolve: " ++ msg])).
    { apply in_or_app. now left. }
    destruct (List.app (push_if true "IPs privados não são permitidos" e2)
                       ["DNS não resolve: " ++ msg]) as [|x l] eqn:E.
    + destruct Hin'.
    + cbn [List.length Nat.ltb Nat.leb]. eexists; split; [reflexivity | exact Hin'].
  - destruct (push_if true "IPs privados não são permitidos" e2) as [|x l] eqn:E.
    + destruct Hin.
    + cbn [List.length Nat.ltb Nat.leb]. eexists; split; [reflexivity | exact Hin].
Qed.

(** The private-address check passes every host that is not a dotted
    IPv4 literal, whatever it resolves to. *)
Lemma not_literal_not_private (hostname : string) :
  Regex.matches Constants.REGEX_IPV4 hostname = false ->
  _isPrivateIP hostname = false.
Proof. intros H. unfold _isPrivateIP. now rewrite H. Qed.

End Validator.

(** C5.  On a platform that parses the candidate URLs as usual and resolves
    [localhost] and [example.com]: the input [http://192.168.1.1] is
    rejected, both of its candidates with the private-address error; the
    input [example.com] is accepted as [https://example.com]; and the input
    [http://localhost] is accepted too, as [https://localhost], because the
    private-address check applies to IPv4 literals only. *)
Theorem C5_validator_private_hosts (P : URLValidator.Platform) :
  (forall s u, In (s, u) URLValidator.example_urls -> URLValidator.new_URL P s = Some u) ->
  URLValidator.resolveDNS P "localhost" = None ->
  URLValidator.resolveDNS P "example.com" = None ->
  (exists e1 e2 suggestions,
      URLValidator.validateAndNormalize P (Some "http://192.168.1.1"%string)
      = URLValidator.Invalid [("https://192.168.1.1"%string, e1);
                              ("http://192.168.1.1"%string, e2)] suggestions /\
      In URLValidator.private_ip_error e1 /\ In URLValidator.private_ip_error e2) /\
  URLValidator.validateAndNormalize P (Some "example.com"%string)
  = URLValidator.Valid (URLValidator.https_result "example.com") true /\
  URLValidator._isPrivateIP "localhost" = false /\
  URLValidator.validateAndNormalize P (Some "http://localhost"%string)
  = URLValidator.Valid (URLValidator.https_result "localhost") true.
Proof.
  intros Hparse Hlocal Hexample.
  assert (H1 := Hparse _ _ (or_introl eq_refl)).
  assert (H2 := Hparse _ _ (or_intror (or_introl eq_refl))).
  assert (H3 := Hparse _ _ (or_intror (or_intror (or_introl eq_refl)))).
  assert (H5 := Hparse _ _ (or_intror (or_intror (or_intror (or_intror (or_introl eq_refl)))))).
  repeat split.
  - destruct (private_literal_rejected P _ _ H1 eq_refl) as (e1 & He1 & Hin1).
    destruct (private_literal_rejected P _ _ H2 eq_refl) as (e2 & He2 & Hin2).
    exists e1, e2. eexists.
    unfold URLValidator.validateAndNormalize.
    change (URLValidator._cleanInput (Some "http://192.168.1.1"%string))
      with (Some "http://192.168.1.1"%string).
    cbv beta iota zeta.
    change (URLValidator._generateUrlVariations "http://192.168.1.1")
      with ["https://192.168.1.1"%string; "http://192.168.1.1"%string].
    cbn [URLValidator.try_variations]. rewrite He1.
    cbn [URLValidator.try_variations]. rewrite He2.
    cbn [URLValidator.try_variations List.app].
    repeat split; assumption.
  - unfold URLValidator.validateAndNormalize.
    change (URLValidator._cleanInput (Some "example.com"%string))
      with (Some "example.com"%string).
    cbv beta iota zeta.
    change (URLValidator._generateUrlVariations "example.com")
      with ["https://example.com"%string; "http://example.com"%string;
            "https://www.example.com"%string; "http://www.example.com"%string].
    cbn [URLValidator.try_variations]. unfold URLValidator._validateSingleUrl at 1.
    rewrite H5. cbn [URLValidator.hostname]. rewrite Hexample. reflexivity.
  - unfold URLValidator.validateAndNormalize.
    change (URLValidator._cleanInput (Some "http://localhost"%string))
      with (Some "http://localhost"%string).
    cbv beta iota zeta.
    change (URLValidator._generateUrlVariations "http://localhost")
      with ["https://localhost"%string; "http://localhost"%string].
    cbn [URLValidator.try_variations]. unfold URLValidator._validateSingleUrl at 1.
    rewrite H3. cbn [URLValidator.hostname]. rewrite Hlocal. reflexivity.
Qed.

(** C5 on the table platform, on which every host resolves. *)
Lemma C5_witness :
  let P := URLValidator.table_platform URLValidator.example_urls in
  URLValidator.validateAndNormalize P (Some "example.com"%string)
  = URLValidator.Valid (URLValidator.https_result "example.com") true /\
  URLValidator.validateAndNormalize P (Some "http://localhost"%string)
  = URLValidator.Valid (URLValidator.https_result "localhost") true.
Proof.
  intros P.
  assert (Hparse : forall s u, In (s, u) URLValidator.example_urls ->
                               URLValidator.new_URL P s = Some u).
  { intros s u Hin. simpl in Hin.
    repeat (destruct Hin as [Hin|Hin]; [injection Hin as <- <-; reflexivity|]).
    destruct Hin. }
  destruct (C5_validator_private_hosts P Hparse eq_refl eq_refl) as (_ & Hex & _ & Hloc).
  split; assumption.
Defined.

(** ** The error classifier *)

Section Classifier.
Import NetworkErrorHandler.
Local Open Scope string_scope.
Local Open Scope Z_scope.

(** An error of the categories [timeout] and [connection] is recoverable. *)
Lemma recoverable_category (e : ProcessedError) :
  p_category e = "timeout" \/ p_category e = "connection" ->
  isRecoverableError e = true.
Proof.
  unfold isRecoverableError. intros [-> | ->]; reflexivity.
Qed.

(** How a request error without a DNS signature is classified. *)
Lemma request_error_category (e : RequestError) :
  response e = None -> request e = true ->
  code_is (code e) "ENOTFOUND" = false ->
  Str.includes (Str.toLowerCase (message e)) "getaddrinfo" = false ->
  code_is (code e) "ECONNREFUSED" = true \/
  code_is (code e) "ECONNRESET" = true \/
  code_is (code e) "ETIMEDOUT" = true \/
  Str.includes (Str.toLowerCase (message e)) "timeout" = true ->
  p_category (processNetworkError e) = "timeout" \/
  p_category (processNetworkError e) = "connection".
Proof.
  intros Hresp Hreq Hnf Hdns Hkind.
  unfold processNetworkError. rewrite Hresp, Hreq.
  unfold _handleRequestError. rewrite Hnf, Hdns. cbn [orb].
  destruct (code_is (code e) "ECONNREFUSED"); [right; reflexivity|].
  destruct (code_is (code e) "ETIMEDOUT"); [left; reflexivity|].
  destruct (Str.includes (Str.toLowerCase (message e)) "timeout");
    [left; reflexivity|].
  destruct (code_is (code e) "ECONNRESET"); [right; reflexivity|].
  cbn [orb] in Hkind. destruct Hkind as [H|[H|[H|H]]]; discriminate.
Qed.

(** An HTTP response error is recoverable exactly for the five statuses. *)
Lemma http_error_recoverable (e : RequestError) (r : Response) :
  response e = Some r ->
  (isRecoverableError (processNetworkError e) = true <->
   In (status r) retryable_statuses).
Proof.
  intros Hresp. unfold processNetworkError. rewrite Hresp.
  unfold _handleHttpError, isRecoverableError.
  set (st := status r).
  assert (Hcat : forall c : string * string,
             (let '(category, severity) := c in
              {| p_type := Some "http_response"; p_category := category;
                 p_severity := severity; p_status := Some st; p_code := None |})
             = {| p_type := Some "http_response"; p_category := fst c;
                  p_severity := snd c; p_status := Some st; p_code := None |})
    by (intros [? ?]; reflexivity).
  cbn [p_code p_category p_severity]. rewrite Hcat. cbn [p_category p_status].
  assert (Hnot : forall c : string * string,
             c = ("client_error", if st =? 404 then "warning" else "error") \/
             c = ("server_error", "error") \/ c = ("network", "error") ->
             (String.eqb (fst c) "timeout" || String.eqb (fst c) "connection") = false).
  { intros c [-> | [-> | ->]]; reflexivity. }
  rewrite Hnot.
  2:{ destruct ((400 <=? st) && (st <? 500)); [now left|].
      destruct (500 <=? st); [right; now left | right; now right]. }
  unfold retryable_statuses. cbn [existsb In].
  split.
  - destruct (st =? 0) eqn:E0; cbn [negb andb]; [discriminate|].
    intros H.
    destruct (st =? 408) eqn:E1; [apply Z.eqb_eq in E1; auto|].
    destruct (st =? 429) eqn:E2; [apply Z.eqb_eq in E2; auto|].
    destruct (st =? 502) eqn:E3; [apply Z.eqb_eq in E3; auto 6|].
    destruct (st =? 503) eqn:E4; [apply Z.eqb_eq in E4; auto 6|].
    destruct (st =? 504) eqn:E5; [apply Z.eqb_eq in E5; auto 7|].
    discriminate.
  - intros [H|[H|[H|[H|[H|[]]]]]]; fold st in H; rewrite <- H; reflexivity.
Qed.

End Classifier.

(** C6 as stated fails: a refused connection is classified as
    recoverable. *)
Lemma C6_counterexample :
  NetworkErrorHandler.p_category
    (NetworkErrorHandler.processNetworkError NetworkErrorHandler.connection_refused)
  = "connection"%string /\
  NetworkErrorHandler.isRecoverableError
    (NetworkErrorHandler.processNetworkError NetworkErrorHandler.connection_refused)
  = true.
Proof. split; reflexivity. Qed.

(** C6 (amended).  The error classifier marks connection-refused,
    connection-reset and timeout failures (request errors with code
    ECONNREFUSED, ECONNRESET or ETIMEDOUT or a message that mentions a
    timeout, and no DNS signature) as retryable; among the HTTP response
    statuses it classifies, exactly 408, 429, 502, 503 and 504 are marked
    retryable. *)
Theorem C6_retryable_classification (e : NetworkErrorHandler.RequestError) :
  (NetworkErrorHandler.response e = None ->
   NetworkErrorHandler.request e = true ->
   NetworkErrorHandler.code_is (NetworkErrorHandler.code e) "ENOTFOUND" = false ->
   Str.includes (Str.toLowerCase (NetworkErrorHandler.message e)) "getaddrinfo" = false ->
   NetworkErrorHandler.code_is (NetworkErrorHandler.code e) "ECONNREFUSED" = true \/
   NetworkErrorHandler.code_is (NetworkErrorHandler.code e) "ECONNRESET" = true \/
   NetworkErrorHandler.code_is (NetworkErrorHandler.code e) "ETIMEDOUT" = true \/
   Str.includes (Str.toLowerCase (NetworkErrorHandler.message e)) "timeout" = true ->
   NetworkErrorHandler.isRecoverableError (NetworkErrorHandler.processNetworkError e) = true)
  /\
  (forall r,
      NetworkErrorHandler.response e = Some r ->
      (NetworkErrorHandler.isRecoverableError (NetworkErrorHandler.processNetworkError e)
       = true
       <-> In (NetworkErrorHandler.status r) [408; 429; 502; 503; 504])).
Proof.
  split.
  - intros Hresp Hreq Hnf Hdns Hkind.
    apply recoverable_category.
    exact (request_error_category e Hresp Hreq Hnf Hdns Hkind).
  - intros r Hresp. exact (http_error_recoverable e r Hresp).
Qed.

(** C6 at the refused connection and at a 503 response. *)
Lemma C6_witness :
  NetworkErrorHandler.isRecoverableError
    (NetworkErrorHandler.processNetworkError NetworkErrorHandler.connection_refused)
  = true /\
  NetworkErrorHandler.isRecoverableError
    (NetworkErrorHandler.processNetworkError
       (NetworkErrorHandler.mkRequestError
          "Request failed with status code 503" None
          (Some (NetworkErrorHandler.mkResponse 503 "Service Unavailable")) true))
  = true.
Proof.
  split.
  - apply (C6_retryable_classification NetworkErrorHandler.connection_refused);
      try reflexivity.
    left. reflexivity.
  - apply (proj2 (C6_retryable_classification
                    (NetworkErrorHandler.mkRequestError
                       "Request failed with status code 503" None
                       (Some (NetworkErrorHandler.mkResponse 503 "Service Unavailable"))
                       true))
                 (NetworkErrorHandler.mkResponse 503 "Service Unavailable") eq_refl).
    simpl. auto.
Defined.

(** ** The certificate chain walk *)

Section ChainWalk.
Import SSLAnalyzer.









End ChainWalk.




(** ** The retry loop *)

Section Retry.
Import NetworkErrorHandler HttpClient.

(** The errors the loop does not retry are the 4xx responses other than
    408 and 429. *)
Lemma client_error_not_retried (e : RequestError) (r : Response) :
  response e = Some r ->
  400 <= status r < 500 -> status r <> 408 -> status r <> 429 ->
  _isNonRetryableError e = true.
Proof.
  intros Hresp [Hlo Hhi] H408 H429. unfold _isNonRetryableError. rewrite Hresp.
  cbn [existsb].
  destruct (Z.leb_spec 400 (status r)); [|lia].
  destruct (Z.ltb_spec (status r) 500); [|lia].
  destruct (Z.eqb_spec (status r) 408); [lia|].
  destruct (Z.eqb_spec (status r) 429); [lia|].
  reflexivity.
Qed.

(** A run of the loop with [remaining] iterations left makes [n] further
    attempts on schedule, [n <= remaining], and an attempt that is not
    retried is the last one. *)
Lemma retry_loop_schedule (net : Network) (remaining : nat) :
  forall attempt lastError trace,
  exists n,
    (n <= remaining)%nat /\ (0 < remaining -> 0 < n)%nat /\
    snd (retry_loop net remaining attempt lastError trace)
    = (trace ++ schedule_from attempt n)%list /\
    forall k e, (attempt <= k < attempt + n)%nat ->
                net k = Rejected e -> _isNonRetryableError e = true ->
                k = (attempt + n - 1)%nat.
Proof.
  induction remaining as [|remaining IH]; intros attempt lastError trace.
  - exists 0%nat. cbn. rewrite app_nil_r. repeat split; lia.
  - cbn [retry_loop].
    set (trace' := ((if (1 <? attempt)%nat
                     then (trace ++ [Delay (Z.of_nat attempt * 1000)])%list
                     else trace) ++ [Request attempt])%list).
    assert (Htrace : forall rest,
               (trace' ++ rest)%list
               = (trace ++ (if (1 <? attempt)%nat
                            then [Delay (Z.of_nat attempt * 1000)] else [])
                        ++ [Request attempt] ++ rest)%list).
    { intros rest. unfold trace'. destruct (1 <? attempt)%nat;
        repeat rewrite <- app_assoc; reflexivity. }
    destruct (net attempt) as [r|e] eqn:Hnet.
    + exists 1%nat. cbn [snd schedule_from]. rewrite <- Htrace, app_nil_r.
      repeat split; try lia.
    + destruct (_isNonRetryableError e) eqn:Hnon.
      * exists 1%nat. cbn [snd schedule_from]. rewrite <- Htrace, app_nil_r.
        repeat split; try lia.
      * destruct (IH (S attempt) (Some e) trace') as (n & Hle & _ & Hsnd & Hlast).
        exists (S n). rewrite Hsnd. cbn [schedule_from]. rewrite Htrace.
        repeat split; try lia.
        intros k e' Hk Hk' Hnon'.
        destruct (Nat.eq_dec k attempt) as [->|Hne].
        -- rewrite Hnet in Hk'. injection Hk' as <-. congruence.
        -- rewrite (Hlast k e'); try assumption; lia.
Qed.

End Retry.

(** C8.  For every behaviour of the network, the fetch makes [n] request
    attempts with [1 <= n <= 3]; they follow the schedule in which attempt
    [k > 1] is preceded by a wait of [k * 1000] ms; and an attempt that
    failed with an HTTP 4xx response other than 408 or 429 is the last
    one. *)
Theorem C8_fetch_retry_policy (net : HttpClient.Network) :
  exists n,
    (1 <= n <= 3)%nat /\
    snd (HttpClient.get net) = HttpClient.schedule n /\
    HttpClient.requests (snd (HttpClient.get net)) = seq 1 n /\
    forall k, (1 <= k <= n)%nat ->
              HttpClient.client_error_response (net k) -> k = n.
Proof.
  destruct (retry_loop_schedule net HttpClient.default_maxRetries 1%nat None [])
    as (n & Hle & Hpos & Hsnd & Hlast).
  exists n.
  assert (Hget : snd (HttpClient.get net) = HttpClient.schedule n).
  { unfold HttpClient.get, HttpClient._makeRequestWithRetry.
    destruct (HttpClient.retry_loop net HttpClient.default_maxRetries 1 None [])
      as [[r|[e|]] trace]; exact Hsnd. }
  unfold HttpClient.default_maxRetries in Hle, Hpos.
  assert (Hn : (1 <= n <= 3)%nat) by lia.
  repeat split; try lia.
  - exact Hget.
  - rewrite Hget.
    destruct n as [|[|[|[|n]]]]; try lia; reflexivity.
  - intros k Hk (e & r & Hrej & Hresp & Hrange & H408 & H429).
    rewrite (Hlast k e); try assumption; try lia.
    exact (client_error_not_retried e r Hresp Hrange H408 H429).
Qed.

(** C8 on a network that answers every request with 404 as an error:
    there is one attempt. *)
Lemma C8_witness :
  snd (HttpClient.get HttpClient.always_404) = [HttpClient.Request 1].
Proof.
  destruct (C8_fetch_retry_policy HttpClient.always_404) as (n & Hn & Hsched & _ & Hlast).
  assert (H1 : 1%nat = n).
  { apply Hlast; [lia|].
    unfold HttpClient.client_error_response, HttpClient.always_404.
    eexists; eexists; split; [reflexivity|]. split; [reflexivity|].
    simpl. repeat split; lia. }
  rewrite Hsched, <- H1. reflexivity.
Defined.

(* ================================================================= *)
(** * Part III. Further properties of the code *)
(* ================================================================= *)

(** ** Strings *)

Section StringFacts.
Local Open Scope string_scope.

Lemma str_app_assoc (a b c : string) : (a ++ b) ++ c = a ++ (b ++ c).
Proof. induction a as [|x a IH]; cbn; [reflexivity | now rewrite IH]. Qed.

Lemma str_app_nil_r (a : string) : a ++ EmptyString = a.
Proof. induction a as [|x a IH]; cbn; [reflexivity | now rewrite IH]. Qed.

Lemma rev_acc_app (s acc : string) : Str.rev_acc s acc = Str.rev_acc s EmptyString ++ acc.
Proof.
  revert acc. induction s as [|x s IH]; intros acc; cbn; [reflexivity|].
  rewrite IH. rewrite (IH (String x EmptyString)). now rewrite str_app_assoc.
Qed.

Lemma rev_acc_rev_acc (s acc : string) :
  Str.rev_acc (Str.rev_acc s acc) EmptyString = Str.rev_acc acc s.
Proof.
  revert acc. induction s as [|x s IH]; intros acc; cbn; [reflexivity|].
  now rewrite IH.
Qed.

Lemma rev_involutive (s : string) : Str.rev (Str.rev s) = s.
Proof. unfold Str.rev. now rewrite rev_acc_rev_acc. Qed.

(** Splitting at a separator that the first piece does not contain. *)
Lemma split_acc_piece (sep : ascii) (s rest cur : string) :
  Str.has_char sep s = false ->
  Str.split_acc sep (s ++ String sep rest) cur
  = Str.rev (Str.rev_acc s cur) :: Str.split_acc sep rest EmptyString.
Proof.
  revert cur. induction s as [|x s IH]; intros cur H; cbn.
  - now rewrite Ascii.eqb_refl.
  - cbn in H. apply orb_false_iff in H. destruct H as [Hx Hs].
    rewrite Hx. now apply IH.
Qed.

Lemma split_acc_last (sep : ascii) (s cur : string) :
  Str.has_char sep s = false ->
  Str.split_acc sep s cur = [Str.rev (Str.rev_acc s cur)].
Proof.
  revert cur. induction s as [|x s IH]; intros cur H; cbn; [reflexivity|].
  cbn in H. apply orb_false_iff in H. destruct H as [Hx Hs].
  rewrite Hx. now apply IH.
Qed.

Lemma split_piece (sep : ascii) (s rest : string) :
  Str.has_char sep s = false ->
  Str.split (s ++ String sep rest) sep = s :: Str.split rest sep.
Proof.
  intros H. unfold Str.split. rewrite split_acc_piece by assumption.
  f_equal. unfold Str.rev. now rewrite rev_acc_rev_acc.
Qed.

Lemma split_last (sep : ascii) (s : string) :
  Str.has_char sep s = false -> Str.split s sep = [s].
Proof.
  intros H. unfold Str.split. rewrite split_acc_last by assumption.
  f_equal. unfold Str.rev. now rewrite rev_acc_rev_acc.
Qed.

Lemma startsWith_app (p s : string) : Str.startsWith (p ++ s) p = true.
Proof.
  induction p as [|x p IH]; cbn; [now destruct s|].
  now rewrite Ascii.eqb_refl, IH.
Qed.

Lemma drop_app (p s : string) : Str.drop (String.length p) (p ++ s) = s.
Proof. induction p as [|x p IH]; cbn; [now destruct s | exact IH]. Qed.

(** A prefix splits the string. *)
Lemma startsWith_split (s p : string) :
  Str.startsWith s p = true -> s = p ++ Str.drop (String.length p) s.
Proof.
  revert s. induction p as [|x p IH]; intros s H; cbn in *.
  - now destruct s.
  - destruct s as [|y s]; [discriminate|].
    apply andb_prop in H. destruct H as [Hxy Hs].
    apply Ascii.eqb_eq in Hxy. subst y. cbn. f_equal. now apply IH.
Qed.

Lemma lower_ascii_idem (c : ascii) : Str.lower_ascii (Str.lower_ascii c) = Str.lower_ascii c.
Proof.
  destruct c as [[] [] [] [] [] [] [] []]; reflexivity.
Qed.

(** Lower-casing twice is lower-casing once. *)
Lemma toLowerCase_idem (s : string) :
  Str.toLowerCase (Str.toLowerCase s) = Str.toLowerCase s.
Proof.
  induction s as [|c s IH]; cbn; [reflexivity|].
  now rewrite lower_ascii_idem, IH.
Qed.

End StringFacts.

(** ** The URL validator: addresses and candidates *)

Section ValidatorFacts.
Import URLValidator.
Local Open Scope string_scope.

(** The decimal text of every octet matches the octet pattern, converts
    back to the octet and contains no dot. *)
Lemma octet_table :
  forallb (fun n =>
             Regex.matches Constants.octet (Str.decimal n)
             && match Str.Number (Str.decimal n) with
                | Some z => Z.eqb z (Z.of_nat n)
                | None => false
                end
             && negb (Str.has_char "." (Str.decimal n)))
          (seq 0 256) = true.
Proof. vm_compute. reflexivity. Qed.

Lemma octet_facts (n : nat) :
  (n <= 255)%nat ->
  Regex.Matches Constants.octet (Str.decimal n) /\
  Str.Number (Str.decimal n) = Some (Z.of_nat n) /\
  Str.has_char "." (Str.decimal n) = false.
Proof.
  intros Hn.
  assert (Hin : In n (seq 0 256)) by (apply in_seq; lia).
  pose proof (proj1 (forallb_forall _ _) octet_table n Hin) as H.
  apply andb_prop in H. destruct H as [H Hdot].
  apply andb_prop in H. destruct H as [Hm Hnum].
  repeat split.
  - now apply matches_iff.
  - destruct (Str.Number (Str.decimal n)) as [z|]; [|discriminate].
    apply Z.eqb_eq in Hnum. now subst.
  - now apply negb_true_iff.
Qed.

Lemma dotted_matches (a b c d : nat) :
  (a <= 255)%nat -> (b <= 255)%nat -> (c <= 255)%nat -> (d <= 255)%nat ->
  Regex.matches Constants.REGEX_IPV4 (dotted a b c d) = true.
Proof.
  intros Ha Hb Hc Hd.
  destruct (octet_facts a Ha) as (Ma & _ & _).
  destruct (octet_facts b Hb) as (Mb & _ & _).
  destruct (octet_facts c Hc) as (Mc & _ & _).
  destruct (octet_facts d Hd) as (Md & _ & _).
  apply matches_iff.
  assert (Hdot : forall s, Regex.Matches Constants.octet s ->
                           Regex.Matches (Regex.Seq Constants.octet (Regex.Chr "."))
                                         (s ++ ".")).
  { intros s Hs. constructor; [exact Hs|]. constructor. reflexivity. }
  replace (dotted a b c d)
    with (((Str.decimal a ++ ".") ++ ((Str.decimal b ++ ".") ++ (Str.decimal c ++ ".")))
            ++ Str.decimal d).
  - unfold Constants.REGEX_IPV4. cbn [Regex.Exactly].
    constructor; [|exact Md].
    constructor; [now apply Hdot|]. constructor; now apply Hdot.
  - unfold dotted. repeat rewrite str_app_assoc. reflexivity.
Qed.

Lemma dotted_parts (a b c d : nat) :
  (a <= 255)%nat -> (b <= 255)%nat -> (c <= 255)%nat -> (d <= 255)%nat ->
  map Str.Number (Str.split (dotted a b c d) ".")
  = [Some (Z.of_nat a); Some (Z.of_nat b); Some (Z.of_nat c); Some (Z.of_nat d)].
Proof.
  intros Ha Hb Hc Hd.
  destruct (octet_facts a Ha) as (_ & Na & Da).
  destruct (octet_facts b Hb) as (_ & Nb & Db).
  destruct (octet_facts c Hc) as (_ & Nc & Dc).
  destruct (octet_facts d Hd) as (_ & Nd & Dd).
  unfold dotted.
  cbn [append].
  rewrite (split_piece "." _ _ Da), (split_piece "." _ _ Db), (split_piece "." _ _ Dc),
    (split_last "." _ Dd).
  cbn [map]. now rewrite Na, Nb, Nc, Nd.
Qed.

End ValidatorFacts.

(** X1.  On the dotted-quad text of every IPv4 address [a.b.c.d] the
    private-address check answers by the first two octets: it holds
    exactly for 10.0.0.0/8, 172.16.0.0/12, 192.168.0.0/16, 127.0.0.0/8 and
    0.0.0.0/8 -- and so for no other address, 169.254.0.0/16 included. *)
Theorem X1_private_ranges (a b c d : nat) :
  (a <= 255)%nat -> (b <= 255)%nat -> (c <= 255)%nat -> (d <= 255)%nat ->
  URLValidator._isPrivateIP (URLValidator.dotted a b c d)
  = URLValidator.in_blocked_range (Z.of_nat a) (Z.of_nat b).
Proof.
  intros Ha Hb Hc Hd. unfold URLValidator._isPrivateIP.
  rewrite (dotted_matches a b c d Ha Hb Hc Hd). cbn [negb].
  rewrite (dotted_parts a b c d Ha Hb Hc Hd). reflexivity.
Qed.

(** X1 at 172.20.1.5, which is blocked, and at the link-local address
    169.254.169.254, which is not. *)
Lemma X1_witness :
  URLValidator._isPrivateIP "172.20.1.5" = true /\
  URLValidator._isPrivateIP "169.254.169.254" = false.
Proof.
  split.
  - exact (X1_private_ranges 172 20 1 5 ltac:(lia) ltac:(lia) ltac:(lia) ltac:(lia)).
  - exact (X1_private_ranges 169 254 169 254 ltac:(lia) ltac:(lia) ltac:(lia) ltac:(lia)).
Defined.

Section RegexAlphabet.
Import Regex.

Lemma str_length_app (s1 s2 : string) :
  String.length (s1 ++ s2) = (String.length s1 + String.length s2)%nat.
Proof. induction s1 as [|c s1 IH]; cbn; [reflexivity|]. now rewrite IH. Qed.

Lemma every_app (ok : ascii -> bool) (s1 s2 : string) :
  Str.every ok (s1 ++ s2) = Str.every ok s1 && Str.every ok s2.
Proof.
  induction s1 as [|c s1 IH]; cbn; [reflexivity|].
  now rewrite IH, andb_assoc.
Qed.

(** A string that matches [r] is made of characters of the ranges of [r]. *)
Lemma over_sound (ok : ascii -> bool) (r : regex) (s : string) :
  Matches r s -> over ok r = true -> Str.every ok s = true.
Proof.
  induction 1 as [|lo hi c Hc|r1 r2 s _ IH|r1 r2 s _ IH
                  |r1 r2 s1 s2 _ IH1 _ IH2| |r s1 s2 _ IH1 _ IH2]; cbn [over]; intros Hok.
  - reflexivity.
  - cbn. rewrite andb_true_r.
    assert (Hin : In (nat_of_ascii c) (seq 0 256)).
    { apply in_seq. pose proof (nat_ascii_bounded c). lia. }
    pose proof (proj1 (forallb_forall _ _) Hok _ Hin) as Hn.
    cbv beta zeta in Hn. rewrite ascii_nat_embedding, Hc in Hn. exact Hn.
  - apply andb_prop in Hok. now apply IH.
  - apply andb_prop in Hok. now apply IH.
  - apply andb_prop in Hok. rewrite every_app, IH1, IH2; tauto.
  - reflexivity.
  - rewrite every_app, IH1, IH2; auto.
Qed.

Lemma max_len_sound (r : regex) (s : string) :
  Matches r s -> forall n, max_len r = Some n -> (String.length s <= n)%nat.
Proof.
  induction 1 as [|lo hi c Hc|r1 r2 s _ IH|r1 r2 s _ IH
                  |r1 r2 s1 s2 _ IH1 _ IH2| |r s1 s2 _ IH1 _ IH2];
    cbn [max_len]; intros n Hn; try discriminate.
  - cbn. lia.
  - injection Hn as <-. cbn. lia.
  - destruct (max_len r1) as [a|], (max_len r2) as [b|]; try discriminate.
    injection Hn as <-. specialize (IH a eq_refl). lia.
  - destruct (max_len r1) as [a|], (max_len r2) as [b|]; try discriminate.
    injection Hn as <-. specialize (IH b eq_refl). lia.
  - destruct (max_len r1) as [a|], (max_len r2) as [b|]; try discriminate.
    injection Hn as <-. specialize (IH1 a eq_refl). specialize (IH2 b eq_refl).
    rewrite str_length_app. lia.
Qed.

End RegexAlphabet.

Section ValidatorResults.
Import URLValidator.
Local Open Scope string_scope.

Lemma replace_prefix (s p r : string) :
  Str.startsWith s p = true ->
  Str.replace s p r = r ++ Str.drop (String.length p) s.
Proof. intros H. destruct s; cbn [Str.replace]; now rewrite H. Qed.

Lemma variations_shape (cleanUrl : string) :
  exists first rest,
    _generateUrlVariations cleanUrl = first :: rest /\
    Str.startsWith first "https://" = true /\
    Forall (fun u => Str.startsWith u "http://" || Str.startsWith u "https://" = true)
           rest /\
    (List.length rest <= 3)%nat.
Proof.
  unfold _generateUrlVariations.
  destruct (Str.startsWith cleanUrl "http://") eqn:Hhttp.
  - cbn [orb]. eexists _, _. split; [reflexivity|].
    rewrite (replace_prefix _ _ _ Hhttp). split; [apply startsWith_app|].
    split; [|cbn; lia]. constructor; [now rewrite Hhttp|constructor].
  - cbn [orb]. destruct (Str.startsWith cleanUrl "https://") eqn:Hhttps.
    + eexists _, _. split; [reflexivity|]. split; [exact Hhttps|].
      split; [constructor|cbn; lia].
    + destruct (Str.startsWith cleanUrl "www."); cbn [negb List.app];
        eexists _, _; (split; [reflexivity|]);
        (split; [apply startsWith_app|]);
        (split; [|cbn; lia]); repeat constructor;
        now rewrite (startsWith_app "http://" cleanUrl).
Qed.

(** What a candidate that validates has passed. *)
Lemma single_valid (P : Platform) (testUrl : string) (v : ValidUrl) :
  _validateSingleUrl P testUrl = SingleValid v ->
  exists u,
    new_URL P testUrl = Some u /\
    v_url v = testUrl /\ v_protocol v = protocol u /\ v_hostname v = hostname u /\
    v_normalizedUrl v = _normalizeUrl u /\
    (protocol u = "http:" \/ protocol u = "https:") /\
    hostname u <> EmptyString /\
    _isValidHostname (hostname u) = true /\
    _isPrivateIP (hostname u) = false /\
    resolveDNS P (hostname u) = None.
Proof.
  unfold _validateSingleUrl.
  destruct (new_URL P testUrl) as [u|]; [|discriminate].
  cbv zeta.
  destruct (existsb (String.eqb (protocol u)) ["http:"; "https:"]) eqn:Hproto;
    destruct (Str.truthy (hostname u)) eqn:Hhost;
    destruct (_isValidHostname (hostname u)) eqn:Hvalid;
    destruct (_isPrivateIP (hostname u)) eqn:Hpriv;
    destruct (resolveDNS P (hostname u)) as [msg|] eqn:Hdns;
    cbn; try discriminate.
  intros H. injection H as <-. exists u. cbn.
  repeat split; try reflexivity; try assumption.
  - cbn in Hproto. apply orb_prop in Hproto. destruct Hproto as [H|H].
    + left. now apply String.eqb_eq in H.
    + rewrite orb_false_r in H. right. now apply String.eqb_eq in H.
  - intros E. now rewrite E in Hhost.
Qed.

(** A rejected candidate carries at least one error. *)
Lemma single_invalid (P : Platform) (testUrl : string) (errors : list string) :
  _validateSingleUrl P testUrl = SingleInvalid errors -> errors <> [].
Proof.
  unfold _validateSingleUrl.
  destruct (new_URL P testUrl) as [u|].
  - cbv zeta.
    match goal with
    | |- context [Nat.ltb 0 (List.length ?E)] => destruct E as [|e es]
    end; cbn; [discriminate|].
    intros H. injection H as <-. discriminate.
  - intros H. injection H as <-. discriminate.
Qed.

Lemma try_variations_some (P : Platform) (l : list string)
      (acc errs : list (string * list string)) (v : ValidUrl) :
  try_variations P l acc = (Some v, errs) ->
  exists l1 l2,
    l = List.app l1 (v_url v :: l2) /\
    _validateSingleUrl P (v_url v) = SingleValid v /\
    forall x, In x l1 -> exists e, _validateSingleUrl P x = SingleInvalid e.
Proof.
  revert acc. induction l as [|x l IH]; intros acc; cbn; [discriminate|].
  destruct (_validateSingleUrl P x) as [e|w] eqn:Hx.
  - intros H. destruct (IH _ H) as (l1 & l2 & -> & Hv & Hl1).
    exists (x :: l1), l2. split; [reflexivity|]. split; [exact Hv|].
    intros y [<-|Hy]; [now exists e|now apply Hl1].
  - intros H. injection H as -> _.
    destruct (single_valid _ _ _ Hx) as (u & _ & Hu & _).
    exists [], l. rewrite Hu. split; [reflexivity|]. split; [exact Hx|].
    intros y [].
Qed.

Lemma try_variations_none (P : Platform) (l : list string)
      (acc errs : list (string * list string)) :
  try_variations P l acc = (None, errs) ->
  exists es,
    errs = List.app acc es /\ map fst es = l /\
    Forall (fun e => _validateSingleUrl P (fst e) = SingleInvalid (snd e)) es.
Proof.
  revert acc. induction l as [|x l IH]; intros acc; cbn.
  - intros H. injection H as <-. exists []. now rewrite app_nil_r.
  - destruct (_validateSingleUrl P x) as [e|w] eqn:Hx; [|discriminate].
    intros H. destruct (IH _ H) as (es & -> & Hmap & Hall).
    exists ((x, e) :: es). rewrite <- app_assoc. split; [reflexivity|].
    split; [cbn; now rewrite Hmap|]. constructor; [exact Hx|exact Hall].
Qed.

End ValidatorResults.

(** X2.  A URL that [validateAndNormalize] reports as valid is one of the
    candidates built from the cleaned input; the platform parses it, with
    the scheme http or https and a non-empty host name that has the shape
    of a host name, is not in a blocked address range and resolves; and
    [isHttps] says whether its scheme is https. *)
Theorem X2_valid_result_sound (P : URLValidator.Platform) (inputUrl : option string)
        (v : URLValidator.ValidUrl) (isHttps : bool) :
  URLValidator.validateAndNormalize P inputUrl = URLValidator.Valid v isHttps ->
  exists cleanUrl u,
    URLValidator._cleanInput inputUrl = Some cleanUrl /\
    In (URLValidator.v_url v) (URLValidator._generateUrlVariations cleanUrl) /\
    URLValidator.new_URL P (URLValidator.v_url v) = Some u /\
    (URLValidator.protocol u = "http:"%string \/
     URLValidator.protocol u = "https:"%string) /\
    URLValidator.v_hostname v = URLValidator.hostname u /\
    URLValidator.hostname u <> EmptyString /\
    URLValidator._isValidHostname (URLValidator.hostname u) = true /\
    URLValidator._isPrivateIP (URLValidator.hostname u) = false /\
    URLValidator.resolveDNS P (URLValidator.hostname u) = None /\
    isHttps = String.eqb (URLValidator.protocol u) "https:".
Proof.
  unfold URLValidator.validateAndNormalize.
  destruct (URLValidator._cleanInput inputUrl) as [cleanUrl|]; [|discriminate].
  cbv zeta.
  destruct (URLValidator.try_variations P _ []) as [[w|] errs] eqn:Htry;
    [|discriminate].
  intros H. injection H as -> <-.
  destruct (try_variations_some _ _ _ _ _ Htry) as (l1 & l2 & Hl & Hv & _).
  destruct (single_valid _ _ _ Hv) as (u & Hu & _ & Hp & Hh & _ & Hs & Hne & Hok & Hpriv & Hdns).
  exists cleanUrl, u. split; [reflexivity|].
  split; [rewrite Hl; apply in_or_app; right; now left|].
  rewrite Hp. repeat split; assumption.
Qed.

(** X2 for the input [example.com] on a platform that parses
    [https://example.com] and resolves every host. *)
Lemma X2_witness :
  exists cleanUrl u,
    URLValidator._cleanInput (Some "example.com"%string) = Some cleanUrl /\
    In "https://example.com"%string (URLValidator._generateUrlVariations cleanUrl) /\
    URLValidator.new_URL (URLValidator.table_platform URLValidator.example_urls)
                         "https://example.com" = Some u /\
    (URLValidator.protocol u = "http:"%string \/
     URLValidator.protocol u = "https:"%string) /\
    "example.com"%string = URLValidator.hostname u /\
    URLValidator.hostname u <> EmptyString /\
    URLValidator._isValidHostname (URLValidator.hostname u) = true /\
    URLValidator._isPrivateIP (URLValidator.hostname u) = false /\
    URLValidator.resolveDNS (URLValidator.table_platform URLValidator.example_urls)
                            (URLValidator.hostname u) = None /\
    true = String.eqb (URLValidator.protocol u) "https:".
Proof.
  exact (X2_valid_result_sound
           (URLValidator.table_platform URLValidator.example_urls)
           (Some "example.com"%string)
           (URLValidator.https_result "example.com") true
           ltac:(vm_compute; reflexivity)).
Defined.

(** X3.  The first candidate tried always carries the scheme https, also
    when the input was written with http; when that candidate validates it
    is the result.  There are at most four candidates and each carries the
    scheme http or https. *)
Theorem X3_https_candidate_first (P : URLValidator.Platform)
        (inputUrl : option string) (cleanUrl : string) :
  URLValidator._cleanInput inputUrl = Some cleanUrl ->
  exists first rest,
    URLValidator._generateUrlVariations cleanUrl = first :: rest /\
    Str.startsWith first "https://" = true /\
    Forall (fun u => Str.startsWith u "http://" || Str.startsWith u "https://" = true)
           rest /\
    (List.length rest <= 3)%nat /\
    forall v,
      URLValidator._validateSingleUrl P first = URLValidator.SingleValid v ->
      URLValidator.validateAndNormalize P inputUrl
      = URLValidator.Valid v (String.eqb (URLValidator.v_protocol v) "https:").
Proof.
  intros Hclean.
  destruct (variations_shape cleanUrl) as (first & rest & Hvar & Hfirst & Hrest & Hlen).
  exists first, rest. repeat split; try assumption.
  intros v Hv. unfold URLValidator.validateAndNormalize.
  rewrite Hclean. cbv zeta. rewrite Hvar. cbn [URLValidator.try_variations].
  now rewrite Hv.
Qed.

(** X3 for the input [  HTTP://Example.com ]. *)
Lemma X3_witness :
  exists first rest,
    URLValidator._generateUrlVariations "http://example.com" = first :: rest /\
    Str.startsWith first "https://" = true /\
    Forall (fun u => Str.startsWith u "http://" || Str.startsWith u "https://" = true)
           rest /\
    (List.length rest <= 3)%nat /\
    forall v,
      URLValidator._validateSingleUrl
        (URLValidator.table_platform URLValidator.example_urls) first
      = URLValidator.SingleValid v ->
      URLValidator.validateAndNormalize
        (URLValidator.table_platform URLValidator.example_urls)
        (Some "  HTTP://Example.com "%string)
      = URLValidator.Valid v (String.eqb (URLValidator.v_protocol v) "https:").
Proof.
  exact (X3_https_candidate_first
           (URLValidator.table_platform URLValidator.example_urls)
           (Some "  HTTP://Example.com "%string) "http://example.com"
           ltac:(vm_compute; reflexivity)).
Defined.

(** X4.  When no candidate validates, the result names every candidate, in
    the order tried, each with the errors its validation gave -- at least
    one -- and the suggestions are those for the cleaned input. *)
Theorem X4_invalid_lists_candidates (P : URLValidator.Platform)
        (inputUrl : option string) (errors : list (string * list string))
        (suggestions : list string) :
  URLValidator.validateAndNormalize P inputUrl = URLValidator.Invalid errors suggestions ->
  exists cleanUrl,
    URLValidator._cleanInput inputUrl = Some cleanUrl /\
    map fst errors = URLValidator._generateUrlVariations cleanUrl /\
    Forall (fun e => URLValidator._validateSingleUrl P (fst e)
                     = URLValidator.SingleInvalid (snd e) /\ snd e <> [])
           errors /\
    suggestions = URLValidator._generateSuggestions cleanUrl.
Proof.
  unfold URLValidator.validateAndNormalize.
  destruct (URLValidator._cleanInput inputUrl) as [cleanUrl|]; [|discriminate].
  cbv zeta.
  destruct (URLValidator.try_variations P _ []) as [[w|] errs] eqn:Htry;
    [discriminate|].
  intros H. injection H as <- <-.
  destruct (try_variations_none _ _ _ _ Htry) as (es & -> & Hmap & Hall).
  exists cleanUrl. cbn [List.app]. repeat split; try assumption.
  apply Forall_forall. intros e He.
  pose proof (proj1 (Forall_forall _ _) Hall e He) as Hbad.
  split; [exact Hbad|]. exact (single_invalid _ _ _ Hbad).
Qed.

(** X4 for the input [192.168.1.1]. *)
Lemma X4_witness :
  exists cleanUrl,
    URLValidator._cleanInput (Some "192.168.1.1"%string) = Some cleanUrl /\
    map fst [ ("https://192.168.1.1"%string, [URLValidator.private_ip_error]);
              ("http://192.168.1.1"%string, [URLValidator.private_ip_error]);
              ("https://www.192.168.1.1"%string, ["URL malformada"%string]);
              ("http://www.192.168.1.1"%string, ["URL malformada"%string]) ]
    = URLValidator._generateUrlVariations cleanUrl /\
    Forall (fun e => URLValidator._validateSingleUrl
                       (URLValidator.table_platform URLValidator.example_urls) (fst e)
                     = URLValidator.SingleInvalid (snd e) /\ snd e <> [])
           [ ("https://192.168.1.1"%string, [URLValidator.private_ip_error]);
             ("http://192.168.1.1"%string, [URLValidator.private_ip_error]);
             ("https://www.192.168.1.1"%string, ["URL malformada"%string]);
             ("http://www.192.168.1.1"%string, ["URL malformada"%string]) ] /\
    ["www.192.168.1.1"%string] = URLValidator._generateSuggestions cleanUrl.
Proof.
  exact (X4_invalid_lists_candidates
           (URLValidator.table_platform URLValidator.example_urls)
           (Some "192.168.1.1"%string) _ _ ltac:(vm_compute; reflexivity)).
Defined.

(** X5.  A host name that [_isValidHostname] accepts consists of letters,
    digits, dots, hyphens and colons only, and has at most 253
    characters. *)
Theorem X5_valid_hostname_shape (hostname : string) :
  URLValidator._isValidHostname hostname = true ->
  Str.every URLValidator.hostname_char hostname = true /\
  (String.length hostname <= 253)%nat.
Proof.
  unfold URLValidator._isValidHostname, URLValidator._isIP.
  destruct (Regex.matches Constants.REGEX_IPV4 hostname) eqn:H4; cbn [orb].
  - intros _. apply matches_iff in H4. split.
    + apply (over_sound _ _ _ H4). vm_compute. reflexivity.
    + pose proof (max_len_sound _ _ H4 15%nat ltac:(vm_compute; reflexivity)). lia.
  - destruct (Regex.matches Constants.REGEX_IPV6 hostname) eqn:H6.
    + intros _. apply matches_iff in H6. split.
      * apply (over_sound _ _ _ H6). vm_compute. reflexivity.
      * pose proof (max_len_sound _ _ H6 39%nat ltac:(vm_compute; reflexivity)). lia.
    + intros H. apply andb_prop in H. destruct H as [Hd Hlen].
      apply matches_iff in Hd. split.
      * apply (over_sound _ _ _ Hd). vm_compute. reflexivity.
      * now apply Nat.leb_le.
Qed.

(** X5 for the host name [example.com]. *)
Lemma X5_witness :
  Str.every URLValidator.hostname_char "example.com" = true /\
  (String.length "example.com" <= 253)%nat.
Proof.
  exact (X5_valid_hostname_shape "example.com" ltac:(vm_compute; reflexivity)).
Defined.

(** ** The error classifier and the fetcher together *)

Section Fetcher.
Import NetworkErrorHandler HttpClient.
Local Open Scope string_scope.
Local Open Scope Z_scope.

Lemma nonretryable_status (e : RequestError) :
  _isNonRetryableError e = true ->
  exists r, response e = Some r /\
            400 <= status r < 500 /\ status r <> 408 /\ status r <> 429.
Proof.
  unfold _isNonRetryableError. destruct (response e) as [r|]; [|discriminate].
  cbn [existsb]. intros H. exists r. split; [reflexivity|].
  destruct (Z.leb_spec 400 (status r)); [|discriminate].
  destruct (Z.ltb_spec (status r) 500); [|discriminate].
  destruct (Z.eqb_spec (status r) 408); [discriminate|].
  destruct (Z.eqb_spec (status r) 429); [discriminate|].
  lia.
Qed.

Lemma total_delay_app (t1 t2 : list Event) :
  total_delay (t1 ++ t2) = total_delay t1 + total_delay t2.
Proof.
  induction t1 as [|[ms|a] t1 IH]; cbn [List.app total_delay]; lia.
Qed.

Lemma total_delay_schedule (n : nat) :
  forall a, (1 <= a)%nat ->
    0 <= total_delay (schedule_from a n)
    /\ total_delay (schedule_from a n)
       <= 500 * (Z.of_nat n * (2 * Z.of_nat a + Z.of_nat n - 1))
          - (if (a =? 1)%nat then if (n =? 0)%nat then 0 else 1000 else 0).
Proof.
  induction n as [|n IH]; intros a Ha.
  - cbn. destruct (a =? 1)%nat; lia.
  - cbn [schedule_from]. rewrite !total_delay_app.
    destruct (IH (S a) ltac:(lia)) as [IH0 IH1].
    replace (S a =? 1)%nat with false in IH1 by (symmetry; apply Nat.eqb_neq; lia).
    cbn [Nat.eqb].
    destruct (Nat.eqb_spec a 1) as [->|Hne].
    + cbn [Nat.ltb Nat.leb total_delay]. split; [lia|]. nia.
    + replace (1 <? a)%nat with true by (symmetry; apply Nat.ltb_lt; lia).
      cbn [total_delay]. split; [lia|]. nia.
Qed.

(** Once an attempt has failed, the loop has an error to throw. *)
Lemma retry_loop_throws_error (net : Network) (remaining : nat) :
  forall attempt e trace,
    fst (retry_loop net remaining attempt (Some e) trace) <> Throw None.
Proof.
  induction remaining as [|remaining IH]; intros attempt e trace;
    cbn [retry_loop]; [cbn; discriminate|].
  destruct (net attempt) as [r|e']; [cbn; discriminate|].
  destruct (_isNonRetryableError e'); [cbn; discriminate|]. apply IH.
Qed.

End Fetcher.

(** X6.  An error on which the fetcher gives up at once is an HTTP
    response error that the classifier puts in the category
    [client_error] and never marks recoverable: the two policies do not
    contradict each other on it. *)
Theorem X6_given_up_not_recoverable (e : NetworkErrorHandler.RequestError) :
  HttpClient._isNonRetryableError e = true ->
  NetworkErrorHandler.p_type (NetworkErrorHandler.processNetworkError e)
  = Some "http_response"%string /\
  NetworkErrorHandler.p_category (NetworkErrorHandler.processNetworkError e)
  = "client_error"%string /\
  NetworkErrorHandler.isRecoverableError (NetworkErrorHandler.processNetworkError e)
  = false.
Proof.
  intros H. destruct (nonretryable_status e H) as (r & Hresp & Hrange & H408 & H429).
  unfold NetworkErrorHandler.processNetworkError. rewrite Hresp.
  unfold NetworkErrorHandler._handleHttpError.
  destruct (Z.leb_spec 400 (NetworkErrorHandler.status r)); [|lia].
  destruct (Z.ltb_spec (NetworkErrorHandler.status r) 500); [|lia].
  cbn [andb]. split; [reflexivity|]. split; [reflexivity|].
  unfold NetworkErrorHandler.isRecoverableError, NetworkErrorHandler.retryable_statuses.
  cbn [NetworkErrorHandler.p_category NetworkErrorHandler.p_status String.eqb
       Ascii.eqb Bool.eqb orb andb existsb].
  destruct (Z.eqb_spec (NetworkErrorHandler.status r) 0); [lia|].
  destruct (Z.eqb_spec (NetworkErrorHandler.status r) 408); [lia|].
  destruct (Z.eqb_spec (NetworkErrorHandler.status r) 429); [lia|].
  destruct (Z.eqb_spec (NetworkErrorHandler.status r) 502); [lia|].
  destruct (Z.eqb_spec (NetworkErrorHandler.status r) 503); [lia|].
  destruct (Z.eqb_spec (NetworkErrorHandler.status r) 504); [lia|].
  reflexivity.
Qed.

(** X6 at a 404 response error. *)
Lemma X6_witness :
  NetworkErrorHandler.p_type
    (NetworkErrorHandler.processNetworkError
       (NetworkErrorHandler.mkRequestError
          "Request failed with status code 404" None
          (Some (NetworkErrorHandler.mkResponse 404 "Not Found")) true))
  = Some "http_response"%string /\
  NetworkErrorHandler.p_category
    (NetworkErrorHandler.processNetworkError
       (NetworkErrorHandler.mkRequestError
          "Request failed with status code 404" None
          (Some (NetworkErrorHandler.mkResponse 404 "Not Found")) true))
  = "client_error"%string /\
  NetworkErrorHandler.isRecoverableError
    (NetworkErrorHandler.processNetworkError
       (NetworkErrorHandler.mkRequestError
          "Request failed with status code 404" None
          (Some (NetworkErrorHandler.mkResponse 404 "Not Found")) true))
  = false.
Proof.
  exact (X6_given_up_not_recoverable
           (NetworkErrorHandler.mkRequestError
              "Request failed with status code 404" None
              (Some (NetworkErrorHandler.mkResponse 404 "Not Found")) true)
           eq_refl).
Defined.

(** X7.  A request error with a DNS signature -- the code ENOTFOUND, or a
    message that mentions [getaddrinfo] in any letter case -- is put in
    the category [dns] with severity [error] whatever else its code and
    message say, and is not marked recoverable; the fetcher retries it all
    the same. *)
Theorem X7_dns_failure (e : NetworkErrorHandler.RequestError) :
  NetworkErrorHandler.response e = None ->
  NetworkErrorHandler.request e = true ->
  NetworkErrorHandler.code e = Some "ENOTFOUND"%string \/
  Str.includes (Str.toLowerCase (NetworkErrorHandler.message e)) "getaddrinfo" = true ->
  NetworkErrorHandler.p_category (NetworkErrorHandler.processNetworkError e)
  = "dns"%string /\
  NetworkErrorHandler.p_severity (NetworkErrorHandler.processNetworkError e)
  = "error"%string /\
  NetworkErrorHandler.isRecoverableError (NetworkErrorHandler.processNetworkError e)
  = false /\
  HttpClient._isNonRetryableError e = false.
Proof.
  intros Hresp Hreq Hdns.
  assert (Hsig : NetworkErrorHandler.code_is (NetworkErrorHandler.code e) "ENOTFOUND"
                 || Str.includes (Str.toLowerCase (NetworkErrorHandler.message e))
                                 "getaddrinfo" = true).
  { destruct Hdns as [-> | ->]; [reflexivity | apply orb_true_r]. }
  unfold NetworkErrorHandler.processNetworkError, HttpClient._isNonRetryableError.
  rewrite Hresp, Hreq. unfold NetworkErrorHandler._handleRequestError.
  rewrite Hsig. repeat split.
Qed.

(** X7 at a timed-out lookup: the code is ETIMEDOUT and the message
    mentions a timeout, yet the category is [dns]. *)
Lemma X7_witness :
  NetworkErrorHandler.p_category
    (NetworkErrorHandler.processNetworkError
       (NetworkErrorHandler.mkRequestError
          "getaddrinfo ETIMEDOUT: lookup timeout" (Some "ETIMEDOUT"%string) None true))
  = "dns"%string /\
  NetworkErrorHandler.p_severity
    (NetworkErrorHandler.processNetworkError
       (NetworkErrorHandler.mkRequestError
          "getaddrinfo ETIMEDOUT: lookup timeout" (Some "ETIMEDOUT"%string) None true))
  = "error"%string /\
  NetworkErrorHandler.isRecoverableError
    (NetworkErrorHandler.processNetworkError
       (NetworkErrorHandler.mkRequestError
          "getaddrinfo ETIMEDOUT: lookup timeout" (Some "ETIMEDOUT"%string) None true))
  = false /\
  HttpClient._isNonRetryableError
    (NetworkErrorHandler.mkRequestError
       "getaddrinfo ETIMEDOUT: lookup timeout" (Some "ETIMEDOUT"%string) None true)
  = false.
Proof.
  exact (X7_dns_failure
           (NetworkErrorHandler.mkRequestError
              "getaddrinfo ETIMEDOUT: lookup timeout" (Some "ETIMEDOUT"%string) None true)
           eq_refl eq_refl (or_intror eq_refl)).
Defined.

(** X8.  The fetch ends with the first attempt [k] that resolves or fails
    with an error that is not retried, or else with the third; its result
    is the response of that attempt, or the classification of that
    attempt's error, and never the failure to process a missing error;
    the trace is the schedule of [k] attempts. *)
Theorem X8_fetch_result (net : HttpClient.Network) :
  exists k,
    (1 <= k <= 3)%nat /\
    snd (HttpClient.get net) = HttpClient.schedule k /\
    (forall j, (1 <= j < k)%nat ->
               exists e, net j = HttpClient.Rejected e /\
                         HttpClient._isNonRetryableError e = false) /\
    match net k with
    | HttpClient.Resolved r => fst (HttpClient.get net) = HttpClient.GetResponse r
    | HttpClient.Rejected e =>
        fst (HttpClient.get net)
        = HttpClient.GetError (NetworkErrorHandler.processNetworkError e) /\
        (k = 3%nat \/ HttpClient._isNonRetryableError e = true)
    end.
Proof.
  unfold HttpClient.get, HttpClient._makeRequestWithRetry, HttpClient.default_maxRetries.
  cbn [HttpClient.retry_loop Nat.ltb Nat.leb List.app].
  destruct (net 1%nat) as [r1|e1] eqn:H1.
  { exists 1%nat. rewrite H1. repeat split; lia. }
  destruct (HttpClient._isNonRetryableError e1) eqn:N1.
  { exists 1%nat. rewrite H1. repeat split; try lia. now right. }
  assert (P1 : forall j, (1 <= j < 2)%nat ->
                         exists e, net j = HttpClient.Rejected e /\
                                   HttpClient._isNonRetryableError e = false).
  { intros j Hj. assert (j = 1%nat) as -> by lia. now exists e1. }
  destruct (net 2%nat) as [r2|e2] eqn:H2.
  { exists 2%nat. rewrite H2. repeat split; try lia. exact P1. }
  destruct (HttpClient._isNonRetryableError e2) eqn:N2.
  { exists 2%nat. rewrite H2. repeat split; try lia; [exact P1 | now right]. }
  assert (P2 : forall j, (1 <= j < 3)%nat ->
                         exists e, net j = HttpClient.Rejected e /\
                                   HttpClient._isNonRetryableError e = false).
  { intros j Hj. assert (j = 1 \/ j = 2)%nat as [-> | ->] by lia;
      [now exists e1 | now exists e2]. }
  exists 3%nat.
  destruct (net 3%nat) as [r3|e3] eqn:H3.
  { repeat split; try lia. exact P2. }
  destruct (HttpClient._isNonRetryableError e3) eqn:N3;
    repeat split; try lia; try exact P2; now left.
Qed.

(** X9.  Whatever the network does and whatever the limit [maxRetries >= 1]
    is, the loop spends at most [500 * maxRetries * (maxRetries + 1) - 1000]
    ms waiting between attempts -- 5000 ms for the default limit of 3 --
    and it ends by throwing an undefined error only when the limit is 0. *)
Theorem X9_retry_wait_bound (net : HttpClient.Network) (maxRetries : nat) :
  (1 <= maxRetries)%nat ->
  (0 <= HttpClient.total_delay (snd (HttpClient._makeRequestWithRetry net maxRetries))
   <= 500 * (Z.of_nat maxRetries * (Z.of_nat maxRetries + 1)) - 1000)%Z /\
  fst (HttpClient._makeRequestWithRetry net maxRetries) <> HttpClient.Throw None.
Proof.
  intros Hm. unfold HttpClient._makeRequestWithRetry. split.
  - destruct (retry_loop_schedule net maxRetries 1%nat None [])
      as (n & Hle & Hpos & Hsnd & _).
    rewrite Hsnd. cbn [List.app].
    destruct (total_delay_schedule n 1%nat ltac:(lia)) as [H0 H1].
    split; [exact H0|]. cbn [Nat.eqb] in H1.
    destruct (Nat.eqb_spec n 0) as [->|Hn]; [lia|]. nia.
  - destruct maxRetries as [|m]; [lia|]. cbn [HttpClient.retry_loop].
    destruct (net 1%nat) as [r|e]; [cbn; discriminate|].
    destruct (HttpClient._isNonRetryableError e); [cbn; discriminate|].
    apply retry_loop_throws_error.
Qed.

(** X9 for the default limit on the network that always answers 404. *)
Lemma X9_witness :
  (0 <= HttpClient.total_delay
          (snd (HttpClient._makeRequestWithRetry HttpClient.always_404 3))
   <= 5000)%Z /\
  fst (HttpClient._makeRequestWithRetry HttpClient.always_404 3)
  <> HttpClient.Throw None.
Proof.
  exact (X9_retry_wait_bound HttpClient.always_404 3 ltac:(lia)).
Defined.

(** X10.  The client configures the HTTP library to reject a response
    only when [validateStatus] fails, that is for a status of 600 or more.
    On a network that obeys this, no failed attempt is of the kind the
    loop does not retry: a fetch that fails has made all three attempts,
    and its error is not in the category [client_error]. *)
Theorem X10_failures_under_validateStatus (net : HttpClient.Network)
        (pe : NetworkErrorHandler.ProcessedError) :
  (forall k e r, net k = HttpClient.Rejected e ->
                 NetworkErrorHandler.response e = Some r ->
                 HttpClient.validateStatus (NetworkErrorHandler.status r) = false) ->
  fst (HttpClient.get net) = HttpClient.GetError pe ->
  HttpClient.requests (snd (HttpClient.get net)) = [1; 2; 3]%nat /\
  NetworkErrorHandler.p_category pe <> "client_error"%string.
Proof.
  intros Hnet.
  assert (Hretry : forall k e, net k = HttpClient.Rejected e ->
                               HttpClient._isNonRetryableError e = false).
  { intros k e Hk. destruct (HttpClient._isNonRetryableError e) eqn:N; [|reflexivity].
    destruct (nonretryable_status e N) as (r & Hresp & Hrange & _).
    specialize (Hnet k e r Hk Hresp). unfold HttpClient.validateStatus in Hnet.
    apply Z.ltb_ge in Hnet. lia. }
  unfold HttpClient.get, HttpClient._makeRequestWithRetry, HttpClient.default_maxRetries.
  cbn [HttpClient.retry_loop Nat.ltb Nat.leb List.app].
  destruct (net 1%nat) as [r1|e1] eqn:H1; [discriminate|].
  rewrite (Hretry _ _ H1).
  destruct (net 2%nat) as [r2|e2] eqn:H2; [discriminate|].
  rewrite (Hretry _ _ H2).
  destruct (net 3%nat) as [r3|e3] eqn:H3; [discriminate|].
  rewrite (Hretry _ _ H3). cbn [fst snd].
  intros H. injection H as <-. split; [reflexivity|].
  unfold NetworkErrorHandler.processNetworkError.
  destruct (NetworkErrorHandler.response e3) as [r|] eqn:Hresp.
  - specialize (Hnet _ _ _ H3 Hresp). unfold HttpClient.validateStatus in Hnet.
    apply Z.ltb_ge in Hnet. unfold NetworkErrorHandler._handleHttpError.
    destruct (Z.ltb_spec (NetworkErrorHandler.status r) 500); [lia|].
    rewrite andb_false_r.
    destruct (Z.leb_spec 500 (NetworkErrorHandler.status r)); [|lia].
    cbn. discriminate.
  - destruct (NetworkErrorHandler.request e3).
    + unfold NetworkErrorHandler._handleRequestError.
      repeat match goal with
             | |- context [if ?c then _ else _] => destruct c
             end; cbn; discriminate.
    + cbn. discriminate.
Qed.

(** X10 on a network that refuses every connection. *)
Lemma X10_witness :
  HttpClient.requests
    (snd (HttpClient.get
            (fun _ => HttpClient.Rejected NetworkErrorHandler.connection_refused)))
  = [1; 2; 3]%nat /\
  NetworkErrorHandler.p_category
    (NetworkErrorHandler.processNetworkError NetworkErrorHandler.connection_refused)
  <> "client_error"%string.
Proof.
  apply (X10_failures_under_validateStatus
           (fun _ => HttpClient.Rejected NetworkErrorHandler.connection_refused)
           (NetworkErrorHandler.processNetworkError
              NetworkErrorHandler.connection_refused)).
  - intros k e r Hk Hr. injection Hk as <-. discriminate Hr.
  - reflexivity.
Defined.

(** ** Consolidation *)

Section Consolidation.
Import AnalysisController.

Lemma existsb_eqb_in (x : string) (l : list string) :
  existsb (String.eqb x) l = true <-> In x l.
Proof.
  rewrite existsb_exists. split.
  - intros (y & Hy & E). apply String.eqb_eq in E. now subst.
  - intros H. exists x. split; [exact H | apply String.eqb_refl].
Qed.

(** [[...new Set(l)]] keeps exactly the members of [l], each once. *)
Lemma dedup_spec (l : list string) :
  forall seen,
    NoDup (URLValidator.dedup l seen) /\
    forall x, In x (URLValidator.dedup l seen) <-> In x l /\ ~ In x seen.
Proof.
  induction l as [|y l IH]; intros seen; cbn [URLValidator.dedup].
  - split; [constructor|]. intros x. cbn. tauto.
  - destruct (existsb (String.eqb y) seen) eqn:E.
    + apply existsb_eqb_in in E. destruct (IH seen) as [Hnd Hin].
      split; [exact Hnd|]. intros x. rewrite Hin. cbn.
      split; [tauto|]. intros [[<-|H] Hn]; tauto.
    + assert (Hy : ~ In y seen).
      { intros H. apply existsb_eqb_in in H. congruence. }
      destruct (IH (y :: seen)) as [Hnd Hin]. split.
      * constructor; [|exact Hnd]. rewrite Hin. cbn. tauto.
      * intros x. cbn. rewrite Hin. cbn.
        destruct (string_dec y x) as [->|Hne]; tauto.
Qed.

(** Every finding has exactly one severity. *)
Lemma length_by_severity (vs : list Vulnerability) :
  List.length vs
  = (count_of Critical vs + count_of High vs + count_of Medium vs + count_of Low vs
     + count_of Info vs + count_of Warning vs + count_of Error vs)%nat.
Proof.
  unfold count_of. induction vs as [|v vs IH]; [reflexivity|].
  cbn [filter List.length]. destruct (severity v); cbn [severity_eqb List.length]; lia.
Qed.

End Consolidation.

(** X11.  The recommendations of a consolidated analysis contain no
    duplicate, and a recommendation is among them exactly when one of the
    four categories gave it. *)
Theorem X11_recommendations_deduplicated (analysis : AnalysisController.Analysis)
        (x : string) :
  NoDup (AnalysisController.recommendations
           (AnalysisController._consolidateAnalysis analysis)) /\
  (In x (AnalysisController.recommendations
           (AnalysisController._consolidateAnalysis analysis))
   <-> In x (AnalysisController.or_empty
               (AnalysisController.c_recommendations (AnalysisController.ssl analysis)))
       \/ In x (AnalysisController.or_empty
                  (AnalysisController.c_recommendations
                     (AnalysisController.headers analysis)))
       \/ In x (AnalysisController.or_empty
                  (AnalysisController.c_recommendations
                     (AnalysisController.cookies analysis)))
       \/ In x (AnalysisController.or_empty
                  (AnalysisController.c_recommendations
                     (AnalysisController.html analysis)))).
Proof.
  cbn [AnalysisController._consolidateAnalysis AnalysisController.recommendations].
  match goal with
  | |- context [URLValidator.dedup ?l []] => destruct (dedup_spec l []) as [Hnd Hin]
  end.
  split; [exact Hnd|]. rewrite Hin, !in_app_iff. cbn. tauto.
Qed.

(** X12.  In the statistics of a consolidated analysis the total is the
    number of findings of the four categories together, and it exceeds
    the sum of the critical, high, medium and low counts by the number of
    findings of severity info, warning or error, which no count
    includes. *)
Theorem X12_stats_counts (analysis : AnalysisController.Analysis) :
  AnalysisController.totalVulnerabilities (AnalysisController.stats analysis)
  = (List.length (AnalysisController.or_empty
                    (AnalysisController.c_vulnerabilities (AnalysisController.ssl analysis)))
     + List.length (AnalysisController.or_empty
                      (AnalysisController.c_vulnerabilities
                         (AnalysisController.headers analysis)))
     + List.length (AnalysisController.or_empty
                      (AnalysisController.c_vulnerabilities
                         (AnalysisController.cookies analysis)))
     + List.length (AnalysisController.or_empty
                      (AnalysisController.c_vulnerabilities
                         (AnalysisController.html analysis))))%nat /\
  AnalysisController.totalVulnerabilities (AnalysisController.stats analysis)
  = (AnalysisController.criticalVulnerabilities (AnalysisController.stats analysis)
     + AnalysisController.highVulnerabilities (AnalysisController.stats analysis)
     + AnalysisController.mediumVulnerabilities (AnalysisController.stats analysis)
     + AnalysisController.lowVulnerabilities (AnalysisController.stats analysis)
     + (AnalysisController.count_of Info
          (AnalysisController.vulnerabilities
             (AnalysisController._consolidateAnalysis analysis)) + AnalysisController.count_of Warning
            (AnalysisController.vulnerabilities
               (AnalysisController._consolidateAnalysis analysis))
        + AnalysisController.count_of Error
            (AnalysisController.vulnerabilities
               (AnalysisController._consolidateAnalysis analysis))))%nat.
Proof.
  unfold AnalysisController.stats.
  cbn [AnalysisController.totalVulnerabilities AnalysisController.criticalVulnerabilities
       AnalysisController.highVulnerabilities AnalysisController.mediumVulnerabilities
       AnalysisController.lowVulnerabilities].
  split.
  - cbn [AnalysisController._consolidateAnalysis AnalysisController.vulnerabilities].
    rewrite !length_app. lia.
  - rewrite (length_by_severity
               (AnalysisController.vulnerabilities
                  (AnalysisController._consolidateAnalysis analysis))) at 1.
    lia.
Qed.
